(** * PicoScope 4824A wrappers: a shallow embedding and its properties

    The development embeds the two wrapper classes of the repository,

    - [Block]:  [ps4824a_wrapper_blockmode_utils.py] (triggered block mode),
    - [Stream]: [ps4824a_wrapper.py] (streaming mode),

    and the growing array of the plot script [scroll_blocks_threaded.py]
    ([Scroll]), as executable Rocq functions and proves the properties of the
    specification against them.

    Modelling conventions.

    - Python [int] is [Z]; lengths and indices of arrays are [nat].
    - Python [float] quantities (millivolts, seconds, fractions) are exact
      rationals [Q]: the arithmetic of the source is read as real
      arithmetic, with [ZeroDivisionError] raised where Python raises it.
    - A [dict] is an insertion-ordered association list ([PyDict]), because
      the source iterates over dictionaries and the order is observable on
      the paths that raise.
    - The vendor driver is the environment.  A run is given a finite
      [script] of driver responses, consumed one per driver call; every call
      is recorded in a [trace] together with the response it got.  A call
      issued when the script is exhausted has not returned yet: the outcome
      of the operation is then [Waiting].
    - Exceptions do not roll the session back: an operation returns its
      outcome together with the session as mutated so far.
    - Console output ([print]) is not modelled. *)

From Stdlib Require Import ZArith QArith Qround Qabs Lia Lqa.
From stdpp Require Import base list strings sorting.

Set Default Proof Using "Type".
Local Open Scope Z_scope.

(** ** Python values and exceptions *)

Inductive exn :=
| PicoSDKCtypesError (status : Z)   (* raised by [assert_pico_ok] *)
| SystemExit                        (* raised by [sys.exit()] *)
| KeyError
| IndexError
| ValueError
| ZeroDivisionError
| AttributeError
| UnboundLocalError.

(** Result of a computation that touches neither the session nor the driver. *)
Inductive result (A : Type) :=
| Ok (a : A)
| Err (e : exn).
Arguments Ok {A} a.
Arguments Err {A} e.

Definition result_bind {A B} (r : result A) (k : A -> result B) : result B :=
  match r with
  | Ok a => k a
  | Err e => Err e
  end.

(** ** Insertion-ordered dictionaries *)

Module PyDict.

Definition dict (V : Type) := list (string * V).

Definition keys {V} (d : dict V) : list string := d.*1.

Fixpoint get {V} (k : string) (d : dict V) : option V :=
  match d with
  | [] => None
  | (k', v) :: d' => if decide (k' = k) then Some v else get k d'
  end.

(** [d[k] = v]: an existing key keeps its position, a new key goes last. *)
Fixpoint set {V} (k : string) (v : V) (d : dict V) : dict V :=
  match d with
  | [] => [(k, v)]
  | (k', v') :: d' =>
      if decide (k' = k) then (k, v) :: d' else (k', v') :: set k v d'
  end.

(** [{k: f(k, v) for k, v in d.items()}] for an [f] that may raise. *)
Fixpoint map_items {V W} (f : string -> V -> result W) (d : dict V)
  : result (dict W) :=
  match d with
  | [] => Ok []
  | (k, v) :: d' =>
      result_bind (f k v) (fun w =>
      result_bind (map_items f d') (fun d'' => Ok ((k, w) :: d'')))
  end.

End PyDict.

Abbreviation dict := PyDict.dict.

(** ** Python arithmetic *)

(** [round(x)] of Python 3 on a number: to the nearest integer, a tie going
    to the even neighbour. *)
Definition py_round (x : Q) : Z :=
  let f := Qfloor x in
  match (x - inject_Z f ?= 1 # 2)%Q with
  | Lt => f
  | Gt => f + 1
  | Eq => if Z.even f then f else f + 1
  end.

(** [l.index(x)]: position of the first occurrence, [ValueError] if none. *)
Fixpoint py_index (x : Z) (l : list Z) : result nat :=
  match l with
  | [] => Err ValueError
  | y :: l' =>
      if decide (y = x) then Ok 0%nat
      else result_bind (py_index x l') (fun i => Ok (S i))
  end.

(** [l[i]] for a non-negative index. *)
Definition py_getitem {A} (l : list A) (i : nat) : result A :=
  match l !! i with
  | Some x => Ok x
  | None => Err IndexError
  end.

(** [d[k]] on a dictionary. *)
Definition py_dict_getitem {V} (d : dict V) (k : string) : result V :=
  match PyDict.get k d with
  | Some v => Ok v
  | None => Err KeyError
  end.

(** ** The vendor binding ([picosdk]) *)

(** Modelled from the spec: the enumeration [ps.PS4000A_CHANNEL] belongs to
    the vendor binding and is not in the repository; the spec calls it a
    fixed channel-name enumeration, the docstrings give the letters A-H and
    the comments give [PS4000a_CHANNEL_A = 0]. *)
Definition PS4000A_CHANNEL : dict Z :=
  [("PS4000A_CHANNEL_A", 0); ("PS4000A_CHANNEL_B", 1);
   ("PS4000A_CHANNEL_C", 2); ("PS4000A_CHANNEL_D", 3);
   ("PS4000A_CHANNEL_E", 4); ("PS4000A_CHANNEL_F", 5);
   ("PS4000A_CHANNEL_G", 6); ("PS4000A_CHANNEL_H", 7)]%string.

(** [ps.PS4000A_CHANNEL['PS4000A_CHANNEL_' + channel_name]] *)
Definition channel_code (channel_name : string) : result Z :=
  py_dict_getitem PS4000A_CHANNEL ("PS4000A_CHANNEL_" +:+ channel_name).
Arguments channel_code : simpl never.

(** Modelled from the spec: the range table of the vendor's conversion
    helpers is not in the repository; the spec gives the ordered table of
    supported millivolt ranges that a range index points into. *)
Definition channelInputRanges : list Z :=
  [10; 20; 50; 100; 200; 500; 1000; 2000; 5000; 10000; 20000; 50000].

(** Modelled from the spec: [mV2adc] of the vendor binding is not in the
    repository; the spec gives it as the linear scaling
    adcCounts = thresholdMv / rangeMv * maxAdcCount, rounded, with rangeMv
    the millivolt value of the range index. *)
Definition mV2adc (millivolts : Q) (range : nat) (maxADC : Z) : result Z :=
  result_bind (py_getitem channelInputRanges range) (fun vRange =>
  Ok (py_round (millivolts / inject_Z vRange * inject_Z maxADC))).

(** The conversion of one sample. *)
Definition scale_mV (vRange maxADC : Z) (x : Q) : Q :=
  (x * inject_Z vRange / inject_Z maxADC)%Q.

(** Modelled from the spec: [adc2mV] of the vendor binding is not in the
    repository; the spec gives it as
    millivolts = rawAdcCount * channelRangeMv / maxAdcCount, applied to
    every element of the buffer it is given. *)
Definition adc2mV (bufferADC : list Q) (range : nat) (maxADC : Z)
  : result (list Q) :=
  result_bind (py_getitem channelInputRanges range) (fun vRange =>
  match bufferADC with
  | [] => Ok []
  | _ =>
      if decide (maxADC = 0) then Err ZeroDivisionError
      else Ok (scale_mV vRange maxADC <$> bufferADC)
  end).

(** ** The driver as environment *)

(** Driver entry points used by the wrappers, with the arguments that vary. *)
Inductive call :=
| ps4000aSetChannel (channel enabled : Z) (coupling_DC : bool) (range : nat)
    (analogOffset : Q)
| ps4000aSetSimpleTrigger (enable source threshold direction delay
    autoTrigger_ms : Z)
| ps4000aGetTimebase2 (timebase noSamples : Z)
| ps4000aSetDataBuffers (channel bufferLth : Z)
| ps4000aRunBlock (noOfPreTriggerSamples noOfPostTriggerSamples timebase : Z)
| ps4000aIsReady
| ps4000aGetValues (noOfSamples : Z)
| ps4000aRunStreaming (sampleInterval : Z) (maxPostTriggerSamples
    overviewBufferSize : nat)
| ps4000aGetStreamingLatestValues
| ps4000aMaximumValue
| ps4000aOpenUnit
| ps4000aChangePowerSource (powerState : Z)
| ps4000aCloseUnit.

(** What a call delivers besides its status: values written through the
    pointers it was given, and for streaming the callback invocation. *)
Inductive payload :=
| NoPayload
| ReadyFlag (ready : Z)
| MaxValue (value : Z)
| BlockData (samples : dict (list Z))
| StreamData (samples : dict (list Z)) (callback : option (nat * nat * bool)).

Record response := { status : Z; delivered : payload }.

Inductive event :=
| Driver (c : call) (r : option response)   (* [None]: not returned yet *)
| Sleep (milliseconds : Z).

Record world := { script : list response; trace : list event }.

Inductive outcome (A : Type) :=
| Returned (a : A)
| Raised (e : exn)
| Waiting.
Arguments Returned {A} a.
Arguments Raised {A} e.
Arguments Waiting {A}.

(** ** The monad of session operations *)

Section Monad.
Context {S : Type}.

Definition M (A : Type) := S -> world -> outcome A * S * world.

Definition ret {A} (a : A) : M A := fun s w => (Returned a, s, w).

Definition bind {A B} (m : M A) (k : A -> M B) : M B := fun s w =>
  match m s w with
  | (Returned a, s', w') => k a s' w'
  | (Raised e, s', w') => (Raised e, s', w')
  | (Waiting, s', w') => (Waiting, s', w')
  end.

Definition raise {A} (e : exn) : M A := fun s w => (Raised e, s, w).

Definition lift {A} (r : result A) : M A :=
  match r with
  | Ok a => ret a
  | Err e => raise e
  end.

Definition gets {A} (f : S -> A) : M A := fun s w => (Returned (f s), s, w).

Definition modify (f : S -> S) : M unit := fun s w => (Returned tt, f s, w).

(** An attribute that is created by an earlier method call. *)
Definition attr {A} (f : S -> option A) : M A := fun s w =>
  match f s with
  | Some a => (Returned a, s, w)
  | None => (Raised AttributeError, s, w)
  end.

Definition log (e : event) (w : world) : world :=
  {| script := script w; trace := trace w ++ [e] |}.

Definition driver_call (c : call) : M response := fun s w =>
  match script w with
  | [] => (Waiting, s, log (Driver c None) w)
  | r :: rest =>
      (Returned r, s,
       {| script := rest; trace := trace w ++ [Driver c (Some r)] |})
  end.

(** [time.sleep(seconds)] *)
Definition sleep (ms : Z) : M unit := fun s w => (Returned tt, s, log (Sleep ms) w).

(** [assert_pico_ok(status)] of picosdk: anything but [PICO_OK] (0) raises. *)
Definition assert_pico_ok (st : Z) : M unit :=
  if decide (st = 0) then ret tt else raise (PicoSDKCtypesError st).

End Monad.
Arguments M S A : clear implicits.

Notation "x <- m ;; k" := (bind m (fun x => k))
  (at level 90, m at level 89, right associativity).
Notation "m ;;; k" := (bind m (fun _ => k))
  (at level 90, right associativity).

(** ** Opening and closing the unit *)

(** The first lines of [__init__], the same in the two classes: open the
    unit, and when the driver answers with the power-source status 286,
    confirm the power source and look at the status of that call.  Any other
    failure is raised as it is. *)
Definition open_unit {S} : M S unit :=
  r <- driver_call ps4000aOpenUnit ;;
  if decide (status r = 0) then ret tt          (* [assert_pico_ok] passes *)
  else
    let powerStatus := status r in
    if decide (powerStatus = 286) then
      r' <- driver_call (ps4000aChangePowerSource powerStatus) ;;
      assert_pico_ok (status r')
    else raise (PicoSDKCtypesError (status r)). (* [raise e] *)

(** [__exit__], the same in the two classes: close the unit; a failure is
    raised again. *)
Definition __exit__ {S} : M S unit :=
  r <- driver_call ps4000aCloseUnit ;;
  assert_pico_ok (status r).

(** * Block mode: [ps4824a_wrapper_blockmode_utils.py] *)

Module Block.

(** What [self.buffers] holds for a channel: the [ctypes] array that
    [run_block] registered with the driver (the driver writes into it), or
    the list of floats that [adc2mV] built from it (the driver no longer
    sees it). *)
Inductive pybuf :=
| CArray (cells : list Z)
| FloatList (values : list Q).

Record Picoscope := {
  max_ADC : Z;
  buffers : dict pybuf;
  active_channels : list string;
  channel_ranges : dict nat;
  (* attributes that exist only once [setup_block] has assigned them *)
  timebase : option Z;
  block_size : option Z;
  pre_trigger_samples : option Z;
  post_trigger_samples : option Z;
  (* assigned by [get_block_traces] *)
  voltage_unit : option string
}.

Definition set_buffers (b : dict pybuf) (self : Picoscope) : Picoscope :=
  {| max_ADC := max_ADC self; buffers := b;
     active_channels := active_channels self;
     channel_ranges := channel_ranges self; timebase := timebase self;
     block_size := block_size self;
     pre_trigger_samples := pre_trigger_samples self;
     post_trigger_samples := post_trigger_samples self;
     voltage_unit := voltage_unit self |}.

Definition set_voltage_unit (u : string) (self : Picoscope) : Picoscope :=
  {| max_ADC := max_ADC self; buffers := buffers self;
     active_channels := active_channels self;
     channel_ranges := channel_ranges self; timebase := timebase self;
     block_size := block_size self;
     pre_trigger_samples := pre_trigger_samples self;
     post_trigger_samples := post_trigger_samples self;
     voltage_unit := Some u |}.

(** [self.active_channels.append(name); self.channel_ranges[name] = r] *)
Definition register_channel (name : string) (r : nat) (self : Picoscope)
  : Picoscope :=
  {| max_ADC := max_ADC self; buffers := buffers self;
     active_channels := active_channels self ++ [name];
     channel_ranges := PyDict.set name r (channel_ranges self);
     timebase := timebase self; block_size := block_size self;
     pre_trigger_samples := pre_trigger_samples self;
     post_trigger_samples := post_trigger_samples self;
     voltage_unit := voltage_unit self |}.

(** The four assignments of [setup_block]. *)
Definition set_block_plan (tb bs pre post : Z) (self : Picoscope)
  : Picoscope :=
  {| max_ADC := max_ADC self; buffers := buffers self;
     active_channels := active_channels self;
     channel_ranges := channel_ranges self; timebase := Some tb;
     block_size := Some bs; pre_trigger_samples := Some pre;
     post_trigger_samples := Some post;
     voltage_unit := voltage_unit self |}.

(** The session as [__init__] leaves it when the device opened and
    reported [max_adc] as its full-scale count. *)
Definition new_session (max_adc : Z) : Picoscope :=
  {| max_ADC := max_adc; buffers := []; active_channels := [];
     channel_ranges := []; timebase := None; block_size := None;
     pre_trigger_samples := None; post_trigger_samples := None;
     voltage_unit := None |}.

(** [self.allowed_ranges]: range index to millivolts. *)
Definition allowed_ranges : list Z :=
  [10; 20; 50; 100; 200; 500; 1000; 2000; 5000; 10000; 20000; 50000].

(** [_get_max_ADC]: the driver writes the full-scale count into a fresh
    [c_int16], which holds 0 until then. *)
Definition _get_max_ADC : M unit Z :=
  r <- driver_call ps4000aMaximumValue ;;
  let max_ADC := match delivered r with MaxValue v => v | _ => 0 end in
  assert_pico_ok (status r) ;;;
  ret max_ADC.

(** [Picoscope(handle)]: the object the constructor hands back. *)
Definition __init__ : M unit Picoscope :=
  open_unit ;;;
  max_ADC <- _get_max_ADC ;;
  ret (new_session max_ADC).

(** The numbers a buffer yields when iterated. *)
Definition samples_of (b : pybuf) : list Q :=
  match b with
  | CArray cells => inject_Z <$> cells
  | FloatList values => values
  end.

(** ** [setup_channel] *)

Definition coerce_channel_range (channel_range_mv : Q) : result nat :=
  match
    match find (fun x => Qle_bool (Qabs channel_range_mv) (inject_Z x))
            allowed_ranges with
    | Some x => Some x               (* next(...) *)
    | None => last allowed_ranges    (* except StopIteration: [-1] *)
    end
  with
  | Some coerced_range => py_index coerced_range allowed_ranges
  | None => Err IndexError
  end.

Definition setup_channel (channel_name : string) (analog_offset : Q)
    (channel_range_mv : Q) (coupling_DC : bool) : M Picoscope unit :=
  channel_range <- lift (coerce_channel_range channel_range_mv) ;;
  channel <- lift (channel_code channel_name) ;;
  r <- driver_call
         (ps4000aSetChannel channel 1 coupling_DC channel_range
            analog_offset) ;;
  assert_pico_ok (status r) ;;;
  modify (register_channel channel_name channel_range).

(** ** [setup_trigger] *)

Definition convert_trigger_units (self : Picoscope)
    (source_channel_name : string) (trigger_threshold_mv : Q) : result Z :=
  match PyDict.get source_channel_name (channel_ranges self) with
  | None => Err SystemExit             (* except KeyError: sys.exit() *)
  | Some source_channel_range =>
      result_bind (py_getitem allowed_ranges source_channel_range) (fun R =>
      if Qle_bool (inject_Z R) trigger_threshold_mv then Err SystemExit
      else mV2adc trigger_threshold_mv source_channel_range (max_ADC self))
  end.

Definition setup_trigger (source_channel_name : string)
    (trigger_threshold_mv : Q) (trigger_direction trigger_delay
    auto_trigger : Z) : M Picoscope unit :=
  self <- gets id ;;
  trigger_threshold <-
    lift (convert_trigger_units self source_channel_name
            trigger_threshold_mv) ;;
  source <- lift (channel_code source_channel_name) ;;
  r <- driver_call
         (ps4000aSetSimpleTrigger 1 source trigger_threshold
            trigger_direction trigger_delay auto_trigger) ;;
  assert_pico_ok (status r).

(** ** [setup_block] *)

(** The float [2e32 - 1]: the double nearest to 2 * 10^32; subtracting 1
    from it gives the same double back. *)
Definition float_2e32_minus_1 : Z := 200000000000000010732324408786944.

Definition convert_timebase (block_size : Z) (block_duration : Q)
  : result Z :=
  if Qeq_bool block_duration 0 then Err ZeroDivisionError else
  let sampling_rate := (inject_Z (block_size - 1) / block_duration)%Q in
  if Qeq_bool sampling_rate 0 then Err ZeroDivisionError else
  let timebase := Qfloor (400000000 / sampling_rate) - 1 in
  if (0 <=? timebase) && (timebase <=? float_2e32_minus_1)
  then Ok timebase
  else Ok 3999.

Definition setup_block (block_size : Z) (block_duration : Q)
    (pre_trigger_percent : Q) : M Picoscope unit :=
  timebase <- lift (convert_timebase block_size block_duration) ;;
  let pre := Qfloor (inject_Z block_size * pre_trigger_percent) in
  modify (set_block_plan timebase block_size pre (block_size - pre)) ;;;
  r <- driver_call (ps4000aGetTimebase2 timebase block_size) ;;
  assert_pico_ok (status r).

(** ** [run_block] *)

(** [(ctypes.c_int16 * n)()]: a zeroed array, [ValueError] for a negative
    length. *)
Definition c_int16_array (n : Z) : result pybuf :=
  if decide (n < 0) then Err ValueError
  else Ok (CArray (replicate (Z.to_nat n) 0)).

(** The [for channel in self.active_channels] loop.  [status] is the local
    variable of that name: unbound until the body has run once. *)
Fixpoint set_data_buffers (channels : list string) (status0 : option Z)
  : M Picoscope (option Z) :=
  match channels with
  | [] => ret status0
  | channel :: rest =>
      n <- attr block_size ;;
      buffer <- lift (c_int16_array n) ;;
      bufs <- gets buffers ;;
      modify (set_buffers (PyDict.set channel buffer bufs)) ;;;
      code <- lift (channel_code channel) ;;
      r <- driver_call (ps4000aSetDataBuffers code n) ;;
      set_data_buffers rest (Some (status r))
  end.

Definition run_block : M Picoscope unit :=
  channels <- gets active_channels ;;
  status1 <- set_data_buffers channels None ;;
  match status1 with
  | None => raise UnboundLocalError
  | Some st => assert_pico_ok st
  end ;;;
  pre <- attr pre_trigger_samples ;;
  post <- attr post_trigger_samples ;;
  tb <- attr timebase ;;
  r <- driver_call (ps4000aRunBlock pre post tb) ;;
  assert_pico_ok (status r).

(** ** [get_block_traces] *)

(** The value of [ready] after a call of [ps4000aIsReady]. *)
Definition ready_after (r : response) (ready : Z) : Z :=
  match delivered r with
  | ReadyFlag v => v
  | _ => ready
  end.

(** [while ready.value == check.value: status_temp = ps4000aIsReady(...)],
    with [check] equal to 0.  The status is assigned and not looked at. *)
Fixpoint is_ready_loop (ready : Z) (scr : list response) (tr : list event)
  {struct scr} : outcome unit * world :=
  if decide (ready = 0) then
    match scr with
    | [] =>
        (Waiting, {| script := []; trace := tr ++ [Driver ps4000aIsReady None] |})
    | r :: scr' =>
        is_ready_loop (ready_after r ready) scr'
          (tr ++ [Driver ps4000aIsReady (Some r)])
    end
  else (Returned tt, {| script := scr; trace := tr |}).

Definition wait_until_ready : M Picoscope unit := fun self w =>
  let '(o, w') := is_ready_loop 0 (script w) (trace w) in (o, self, w').

(** The driver stores samples into an array of fixed length. *)
Definition write_cells (data cells : list Z) : list Z :=
  take (length cells) data ++ drop (length data) cells.

(** The samples a call delivers land in the arrays [self.buffers] still
    shares with the driver. *)
Definition driver_fill (r : response) (bufs : dict pybuf) : dict pybuf :=
  match delivered r with
  | BlockData samples =>
      (fun '(chl, b) =>
         match b, PyDict.get chl samples with
         | CArray cells, Some data => (chl, CArray (write_cells data cells))
         | _, _ => (chl, b)
         end) <$> bufs
  | _ => bufs
  end.

(** [adc2mV(buffer, self.channel_ranges[chl], self.max_ADC)], the value of
    one entry of the comprehension in [convert_ADC_units]. *)
Definition convert_entry (self : Picoscope) (chl : string) (buffer : pybuf)
  : result pybuf :=
  result_bind (py_dict_getitem (channel_ranges self) chl) (fun range =>
  result_bind (adc2mV (samples_of buffer) range (max_ADC self)) (fun mv =>
  Ok (FloatList mv))).

Definition convert_ADC_units : M Picoscope unit :=
  self <- gets id ;;
  converted <-
    lift (PyDict.map_items (convert_entry self) (buffers self)) ;;
  modify (set_buffers converted) ;;;
  modify (set_voltage_unit "mV").

Definition get_block_traces : M Picoscope (dict pybuf) :=
  wait_until_ready ;;;
  n <- attr block_size ;;
  r <- driver_call (ps4000aGetValues n) ;;
  bufs <- gets buffers ;;
  modify (set_buffers (driver_fill r bufs)) ;;;
  assert_pico_ok (status r) ;;;
  convert_ADC_units ;;;
  gets buffers.

(** ** Vocabulary for runs of [run_block] *)

(** The code of a channel name that has one. *)
Definition code_of (channel : string) : Z :=
  match channel_code channel with
  | Ok code => code
  | Err _ => 0
  end.

(** The [status] variable after the loop has consumed the responses [rs]. *)
Definition status_after (rs : list response) (status0 : option Z)
  : option Z :=
  fold_left (fun _ r => Some (status r)) rs status0.

(** The buffers after the loop has run over [channels]. *)
Definition fresh_buffers (n : Z) (channels : list string)
    (bufs : dict pybuf) : dict pybuf :=
  foldl (fun b c => PyDict.set c (CArray (replicate (Z.to_nat n) 0)) b)
    bufs channels.

(** ** Vocabulary for results of [get_block_traces] *)

(** Entry [e2] is entry [e1], a list of numbers, put once more through the
    ADC-to-millivolt scaling of its channel. *)
Definition rescaled (self : Picoscope) (e1 e2 : string * pybuf) : Prop :=
  e1.1 = e2.1 /\
  exists idx R v,
    PyDict.get e1.1 (channel_ranges self) = Some idx /\
    allowed_ranges !! idx = Some R /\
    e1.2 = FloatList v /\
    e2.2 = FloatList (scale_mV R (max_ADC self) <$> v).

(** ** Channel bookkeeping *)

(** The names in the two dictionaries are the names of the list of active
    channels, each dictionary holds a name once, and every stored range
    index and channel name is one the tables know. *)
Definition well_keyed (self : Picoscope) : Prop :=
  NoDup (PyDict.keys (channel_ranges self)) /\
  NoDup (PyDict.keys (buffers self)) /\
  (forall c, c ∈ active_channels self <-> c ∈ PyDict.keys (channel_ranges self)) /\
  (forall c, c ∈ PyDict.keys (buffers self) -> c ∈ active_channels self) /\
  (forall c idx,
     PyDict.get c (channel_ranges self) = Some idx ->
     is_Some (allowed_ranges !! idx) /\ exists code, channel_code c = Ok code).

(** ** Sessions a program can reach *)

(** A session is what [__init__] made, or what a method call left behind,
    whatever the driver answered and however the call ended. *)
Inductive reachable : Picoscope -> Prop :=
| reach_new max_adc : reachable (new_session max_adc)
| reach_setup_channel self name offset range coupling w :
    reachable self ->
    reachable (setup_channel name offset range coupling self w).1.2
| reach_setup_trigger self src t dir delay auto w :
    reachable self ->
    reachable (setup_trigger src t dir delay auto self w).1.2
| reach_setup_block self n d f w :
    reachable self -> reachable (setup_block n d f self w).1.2
| reach_run_block self w :
    reachable self -> reachable (run_block self w).1.2
| reach_get_block_traces self w :
    reachable self -> reachable (get_block_traces self w).1.2.

End Block.

(** * Streaming mode: [ps4824a_wrapper.py] *)

Module Stream.

(** A destination buffer is a [numpy] [int16] array while a run collects
    into it and a list of floats once [adc2mV] has converted it. *)
Inductive pybuf :=
| NdArray (cells : list Z)
| FloatList (values : list Q).

Record Picoscope := {
  intermediate_buffers : dict (list Z);
  channel_ranges : dict nat;
  buffer_len : nat;
  num_buffers : nat;
  total_buffer_len : nat;
  (* assigned at the start of every [stream_traces] *)
  complete_buffers : dict pybuf;
  _nextSample : nat;
  _autoStopOuter : bool;
  _wasCalledBack : bool;
  voltage_unit : option string
}.

Definition set_intermediate_buffers (b : dict (list Z)) (self : Picoscope)
  : Picoscope :=
  {| intermediate_buffers := b; channel_ranges := channel_ranges self;
     buffer_len := buffer_len self; num_buffers := num_buffers self;
     total_buffer_len := total_buffer_len self;
     complete_buffers := complete_buffers self;
     _nextSample := _nextSample self;
     _autoStopOuter := _autoStopOuter self;
     _wasCalledBack := _wasCalledBack self;
     voltage_unit := voltage_unit self |}.

Definition set_channel_ranges (r : dict nat) (self : Picoscope) : Picoscope :=
  {| intermediate_buffers := intermediate_buffers self; channel_ranges := r;
     buffer_len := buffer_len self; num_buffers := num_buffers self;
     total_buffer_len := total_buffer_len self;
     complete_buffers := complete_buffers self;
     _nextSample := _nextSample self;
     _autoStopOuter := _autoStopOuter self;
     _wasCalledBack := _wasCalledBack self;
     voltage_unit := voltage_unit self |}.

Definition set_complete_buffers (b : dict pybuf) (self : Picoscope)
  : Picoscope :=
  {| intermediate_buffers := intermediate_buffers self;
     channel_ranges := channel_ranges self;
     buffer_len := buffer_len self; num_buffers := num_buffers self;
     total_buffer_len := total_buffer_len self;
     complete_buffers := b;
     _nextSample := _nextSample self;
     _autoStopOuter := _autoStopOuter self;
     _wasCalledBack := _wasCalledBack self;
     voltage_unit := voltage_unit self |}.

Definition set_nextSample (n : nat) (self : Picoscope) : Picoscope :=
  {| intermediate_buffers := intermediate_buffers self;
     channel_ranges := channel_ranges self;
     buffer_len := buffer_len self; num_buffers := num_buffers self;
     total_buffer_len := total_buffer_len self;
     complete_buffers := complete_buffers self;
     _nextSample := n;
     _autoStopOuter := _autoStopOuter self;
     _wasCalledBack := _wasCalledBack self;
     voltage_unit := voltage_unit self |}.

Definition set_autoStopOuter (b : bool) (self : Picoscope) : Picoscope :=
  {| intermediate_buffers := intermediate_buffers self;
     channel_ranges := channel_ranges self;
     buffer_len := buffer_len self; num_buffers := num_buffers self;
     total_buffer_len := total_buffer_len self;
     complete_buffers := complete_buffers self;
     _nextSample := _nextSample self;
     _autoStopOuter := b;
     _wasCalledBack := _wasCalledBack self;
     voltage_unit := voltage_unit self |}.

Definition set_wasCalledBack (b : bool) (self : Picoscope) : Picoscope :=
  {| intermediate_buffers := intermediate_buffers self;
     channel_ranges := channel_ranges self;
     buffer_len := buffer_len self; num_buffers := num_buffers self;
     total_buffer_len := total_buffer_len self;
     complete_buffers := complete_buffers self;
     _nextSample := _nextSample self;
     _autoStopOuter := _autoStopOuter self;
     _wasCalledBack := b;
     voltage_unit := voltage_unit self |}.

Definition set_voltage_unit (u : string) (self : Picoscope) : Picoscope :=
  {| intermediate_buffers := intermediate_buffers self;
     channel_ranges := channel_ranges self;
     buffer_len := buffer_len self; num_buffers := num_buffers self;
     total_buffer_len := total_buffer_len self;
     complete_buffers := complete_buffers self;
     _nextSample := _nextSample self;
     _autoStopOuter := _autoStopOuter self;
     _wasCalledBack := _wasCalledBack self;
     voltage_unit := Some u |}.

(** The session as [__init__] leaves it when the device opened:
    [_set_buffer_len()] with its defaults 512 and 8. *)
Definition new_session : Picoscope :=
  {| intermediate_buffers := []; channel_ranges := [];
     buffer_len := 512; num_buffers := 8; total_buffer_len := 512 * 8;
     complete_buffers := []; _nextSample := 0; _autoStopOuter := false;
     _wasCalledBack := false; voltage_unit := None |}.

(** [Picoscope(handle)]: the object the constructor hands back. *)
Definition __init__ : M unit Picoscope :=
  open_unit ;;;
  ret new_session.

(** ** [setup_channel] and [setup_stream] *)

Definition setup_channel (channel_name : string) (analog_offset : Q)
    (channel_range : nat) (coupling_DC : bool) : M Picoscope unit :=
  channel <- lift (channel_code channel_name) ;;
  r <- driver_call
         (ps4000aSetChannel channel 1 coupling_DC channel_range
            analog_offset) ;;
  assert_pico_ok (status r) ;;;
  self <- gets id ;;
  modify (set_intermediate_buffers
            (PyDict.set channel_name (replicate (buffer_len self) 0)
               (intermediate_buffers self))) ;;;
  modify (set_channel_ranges
            (PyDict.set channel_name channel_range (channel_ranges self))) ;;;
  channel' <- lift (channel_code channel_name) ;;
  r' <- driver_call
          (ps4000aSetDataBuffers channel' (Z.of_nat (buffer_len self))) ;;
  assert_pico_ok (status r').

Definition setup_stream (sample_interval : Z) : M Picoscope unit :=
  self <- gets id ;;
  r <- driver_call
         (ps4000aRunStreaming sample_interval (total_buffer_len self)
            (buffer_len self)) ;;
  assert_pico_ok (status r).

(** ** [stream_traces] *)

(** [l[a:b]] for [0 <= a <= b]: the bounds are clipped to the array. *)
Definition np_slice {A} (a b : nat) (l : list A) : list A :=
  take (b - a) (drop a l).

(** [dst[a:b] = src] on [numpy] arrays: the shapes must agree, except that
    a source of one element is broadcast. *)
Definition ndarray_setslice (a b : nat) (src dst : list Z)
  : result (list Z) :=
  let n := length (np_slice a b dst) in
  if decide (length src = n) then Ok (take a dst ++ src ++ drop (a + n) dst)
  else
    match src with
    | [x] => Ok (take a dst ++ replicate n x ++ drop (a + n) dst)
    | _ => Err ValueError
    end.

(** [buffer[a:b] = src].  On a Python list the slice is replaced by the
    elements of [src], whatever their number. *)
Definition setslice (a b : nat) (src : list Z) (buffer : pybuf)
  : result pybuf :=
  match buffer with
  | NdArray dst =>
      result_bind (ndarray_setslice a b src dst) (fun dst' => Ok (NdArray dst'))
  | FloatList l => Ok (FloatList (take a l ++ (inject_Z <$> src) ++ drop b l))
  end.

(** The [for chl, buffer in self.complete_buffers.items()] loop of the
    callback.  The arrays are mutated in place, so the channels visited
    before an exception keep their copy. *)
Fixpoint copy_segment (inter : dict (list Z)) (destStart destEnd startIndex
    sourceEnd : nat) (items : dict pybuf) : dict pybuf * option exn :=
  match items with
  | [] => ([], None)
  | (chl, buffer) :: rest =>
      match
        result_bind (py_dict_getitem inter chl) (fun src =>
        setslice destStart destEnd (np_slice startIndex sourceEnd src) buffer)
      with
      | Err e => ((chl, buffer) :: rest, Some e)
      | Ok buffer' =>
          let '(rest', e) :=
            copy_segment inter destStart destEnd startIndex sourceEnd rest in
          ((chl, buffer') :: rest', e)
      end
  end.

Definition streaming_callback (noOfSamples startIndex : nat)
    (autoStop : bool) : M Picoscope unit :=
  modify (set_wasCalledBack true) ;;;
  self <- gets id ;;
  let destEnd := (_nextSample self + noOfSamples)%nat in
  let sourceEnd := (startIndex + noOfSamples)%nat in
  let '(bufs, e) :=
    copy_segment (intermediate_buffers self) (_nextSample self) destEnd
      startIndex sourceEnd (complete_buffers self) in
  modify (set_complete_buffers bufs) ;;;
  match e with
  | Some e => raise e
  | None =>
      modify (set_nextSample (_nextSample self + noOfSamples)) ;;;
      if autoStop then modify (set_autoStopOuter true) else ret tt
  end.

(** The driver stores samples into an array of fixed length. *)
Definition write_cells (data cells : list Z) : list Z :=
  take (length cells) data ++ drop (length data) cells.

(** The driver refreshes the intermediate buffers registered with it. *)
Definition refresh (samples : dict (list Z)) (inter : dict (list Z))
  : dict (list Z) :=
  (fun '(chl, cells) =>
     match PyDict.get chl samples with
     | Some data => (chl, write_cells data cells)
     | None => (chl, cells)
     end) <$> inter.

(** What one [ps4000aGetStreamingLatestValues] does to the session: the
    driver refreshes the intermediate buffers registered with it and may
    invoke the callback.  The callback runs under [ctypes], which reports an
    exception raised in it and carries on. *)
Definition driver_deliver (r : response) : M Picoscope unit :=
  match delivered r with
  | StreamData samples callback =>
      self <- gets id ;;
      modify (set_intermediate_buffers
                (refresh samples (intermediate_buffers self))) ;;;
      match callback with
      | Some (noOfSamples, startIndex, autoStop) =>
          fun self' w =>
            let '(_, self'', w') :=
              streaming_callback noOfSamples startIndex autoStop self' w in
            (Returned tt, self'', w')
      | None => ret tt
      end
  | _ => ret tt
  end.

(** [while self._nextSample < self.total_buffer_len and not
    self._autoStopOuter: ...] *)
Fixpoint stream_loop (scr : list response) (self : Picoscope)
    (tr : list event) {struct scr} : outcome unit * Picoscope * world :=
  if bool_decide (_nextSample self < total_buffer_len self)%nat
     && negb (_autoStopOuter self)
  then
    let self1 := set_wasCalledBack false self in
    match scr with
    | [] =>
        (Waiting, self1,
         {| script := [];
            trace := tr ++ [Driver ps4000aGetStreamingLatestValues None] |})
    | r :: scr' =>
        let tr1 := tr ++ [Driver ps4000aGetStreamingLatestValues (Some r)] in
        let '(_, self2, _) :=
          driver_deliver r self1 {| script := scr'; trace := tr1 |} in
        if _wasCalledBack self2 then stream_loop scr' self2 tr1
        else stream_loop scr' self2 (tr1 ++ [Sleep 10])   (* time.sleep(0.01) *)
    end
  else (Returned tt, self, {| script := scr; trace := tr |}).

(** ** Vocabulary for delivered segments *)

(** The samples of channel [chl] that a callback with [noOfSamples] and
    [startIndex] is to copy out of the intermediate buffers [inter]. *)
Definition segment (inter : dict (list Z)) (startIndex noOfSamples : nat)
    (chl : string) : list Z :=
  np_slice startIndex (startIndex + noOfSamples)
    (default [] (PyDict.get chl inter)).

(** A destination buffer after a callback whose segment fits: the segment
    in place of the cells from the cursor on. *)
Definition landed (inter : dict (list Z)) (cursor n start : nat)
    (e : string * pybuf) : string * pybuf :=
  (e.1,
   match e.2 with
   | NdArray dst =>
       NdArray (take cursor dst ++ segment inter start n e.1
                  ++ drop (cursor + n) dst)
   | b => b
   end).

(** The assignments that open [stream_traces]. *)
Definition stream_start (self : Picoscope) : Picoscope :=
  set_wasCalledBack false
    (set_autoStopOuter false
       (set_nextSample 0
          (set_complete_buffers
             ((fun '(key, _) =>
                 (key, NdArray (replicate (total_buffer_len self) 0)))
                <$> intermediate_buffers self)
             self))).

Definition samples_of (b : pybuf) : list Q :=
  match b with
  | NdArray cells => inject_Z <$> cells
  | FloatList values => values
  end.

Definition convert_ADC_units : M Picoscope unit :=
  r <- driver_call ps4000aMaximumValue ;;
  let maxADC := match delivered r with MaxValue v => v | _ => 0 end in
  assert_pico_ok (status r) ;;;
  self <- gets id ;;
  converted <-
    lift (PyDict.map_items
            (fun chl buffer =>
               result_bind (py_dict_getitem (channel_ranges self) chl)
                 (fun range =>
               result_bind (adc2mV (samples_of buffer) range maxADC)
                 (fun mv => Ok (FloatList mv))))
            (complete_buffers self)) ;;
  modify (set_complete_buffers converted) ;;;
  modify (set_voltage_unit "mV").

Definition stream_traces : M Picoscope (dict pybuf) :=
  modify stream_start ;;;
  (fun self w => stream_loop (script w) self (trace w)) ;;;
  convert_ADC_units ;;;
  gets complete_buffers.

End Stream.

(** * The scrolling plot: [scroll_blocks_threaded.py] *)

Module Scroll.

(** The globals [data] and [ptr] of the script.  [data] is a [numpy] array
    of floats made by [np.empty]: a cell holds no value of the program
    ([None]) until one is assigned to it. *)
Record plot := { data : list (option Q); ptr : nat }.

(** [data = np.empty(100); ptr = 0] *)
Definition start : plot := {| data := replicate 100 None; ptr := 0 |}.

(** The bookkeeping of one turn of the loop of [pico_run], with
    [traces_mean[0]] of the capture of that turn:
    [data[ptr] = traces_mean[0]; ptr += 1] and, when [ptr] has reached the
    length of [data], a new array of twice the length whose first half is
    the old one. *)
Definition store (mean : Q) (st : plot) : result plot :=
  match data st !! ptr st with
  | None => Err IndexError
  | Some _ =>
      let data1 := <[ptr st := Some mean]> (data st) in
      let ptr1 := S (ptr st) in
      if decide (length data1 <= ptr1)%nat then
        let tmp := data1 in
        Ok {| data := tmp ++ replicate (length tmp) None; ptr := ptr1 |}
      else Ok {| data := data1; ptr := ptr1 |}
  end.

(** The turns of the loop for the captures whose means are given. *)
Fixpoint pico_run (means : list Q) (st : plot) : result plot :=
  match means with
  | [] => Ok st
  | mean :: means' => result_bind (store mean st) (pico_run means')
  end.

(** [data[:ptr]], what the curve is given to draw. *)
Definition shown (st : plot) : list (option Q) := take (ptr st) (data st).

End Scroll.

(** * Vocabulary for traces *)

(** A readiness poll that came back empty-handed: [ps4000aIsReady] leaving
    the flag at 0, or [ps4000aGetStreamingLatestValues] not invoking the
    callback. *)
Definition unsuccessful_poll (e : event) : bool :=
  match e with
  | Driver ps4000aIsReady (Some r) => bool_decide (Block.ready_after r 0 = 0)
  | Driver ps4000aGetStreamingLatestValues (Some r) =>
      match delivered r with
      | StreamData _ (Some _) => false
      | _ => true
      end
  | _ => false
  end.

Definition is_sleep (e : event) : bool :=
  match e with
  | Sleep _ => true
  | Driver _ _ => false
  end.

(** Whatever follows an unsuccessful poll in the trace is a sleep. *)
Fixpoint backs_off (tr : list event) : bool :=
  match tr with
  | e :: tr' =>
      match tr' with
      | e' :: _ => (if unsuccessful_poll e then is_sleep e' else true)
      | [] => true
      end && backs_off tr'
  | [] => true
  end.

(** * Scenarios *)

(** Concrete sessions and driver scripts, used to run the model. *)
Module Scenario.

Definition ok : response := {| status := 0; delivered := NoPayload |}.

(** A driver that has nothing more to say. *)
Definition quiet (tr : list event) : world := {| script := []; trace := tr |}.

(** Channels A and B configured at 2000 mV (range index 7) on a device
    whose full-scale count is 32767, as the example scripts do. *)
Definition session_AB : Block.Picoscope :=
  Block.register_channel "B" 7
    (Block.register_channel "A" 7 (Block.new_session 32767)).

(** The same session after [setup_block(4, 3e-5, 0)]: blocks of four
    samples at 100 kS/s, timebase 3999, no pre-trigger samples. *)
Definition session_planned : Block.Picoscope :=
  Block.set_block_plan 3999 4 0 4 session_AB.

(** The session after [setup_channel('A')] has succeeded twice. *)
Definition session_AA : Block.Picoscope :=
  Block.set_block_plan 3999 4 0 4
    (Block.register_channel "A" 7
       (Block.register_channel "A" 7 (Block.new_session 32767))).

(** A driver call that fails with status 13. *)
Definition failed : response := {| status := 13; delivered := NoPayload |}.

(** [ps4000aIsReady] answers: not ready, ready, and ready with an error
    status. *)
Definition not_ready : response :=
  {| status := 0; delivered := ReadyFlag 0 |}.
Definition ready : response := {| status := 0; delivered := ReadyFlag 1 |}.
Definition ready_failed : response :=
  {| status := 13; delivered := ReadyFlag 1 |}.

(** [ps4000aGetValues] delivering a captured block for A and B. *)
Definition captured : response :=
  {| status := 0;
     delivered := BlockData [("A", [100; 200; -300; 32767]);
                             ("B", [1; 2; 3; 4])]%string |}.

(** [session_planned] after a [run_block] that the driver accepted. *)
Definition session_armed : Block.Picoscope :=
  (Block.run_block session_planned
     {| script := [ok; ok; ok]; trace := [] |}).1.2.

(** A streaming session after [setup_channel('A')] went through: the
    intermediate buffer of A has 512 cells, a run collects 4096 samples. *)
Definition streaming_A : Stream.Picoscope :=
  (Stream.setup_channel "A" 0 9 true Stream.new_session
     {| script := [ok; ok]; trace := [] |}).1.2.

(** The samples [a, a + 1, ..., a + n - 1]. *)
Definition ramp (a n : nat) : list Z := Z.of_nat <$> seq a n.

(** Two polls of a streaming run: the driver has put 50 samples at the head
    of the intermediate buffer, and then 30 more behind them. *)
Definition first_50 : response :=
  {| status := 0;
     delivered := StreamData [("A"%string, ramp 1 50)] (Some (50%nat, 0%nat, false)) |}.

(** A poll that finds no new data. *)
Definition no_data : response :=
  {| status := 0; delivered := StreamData [] None |}.

End Scenario.

(** * Properties *)

(** ** Dictionaries *)

Module PyDictFacts.
Import PyDict.

Lemma get_set_eq {V} k (v : V) d : get k (set k v d) = Some v.
Proof.
induction d as [|[k' v'] d IH]; simpl.
- by rewrite decide_True.
- destruct (decide (k' = k)) as [->|Hne]; simpl.
  + by rewrite decide_True.
  + by rewrite decide_False.
Qed.

Lemma get_set_ne {V} k k' (v : V) d : k ≠ k' -> get k' (set k v d) = get k' d.
Proof.
intros Hne. induction d as [|[k0 v0] d IH]; simpl.
- by rewrite decide_False.
- destruct (decide (k0 = k)) as [->|Hne0]; simpl.
  + by rewrite !decide_False.
  + by rewrite IH.
Qed.

Lemma elem_of_keys_get {V} k (d : dict V) : k ∈ keys d <-> is_Some (get k d).
Proof.
unfold keys. induction d as [|[k' v'] d IH]; simpl.
- split; [by intros ?%elem_of_nil | by intros [? ?]].
- rewrite elem_of_cons, IH. destruct (decide (k' = k)) as [->|Hne].
  + split; eauto.
  + split; [intros [?|?]; [congruence | done] | by right].
Qed.

Lemma not_elem_of_keys_get {V} k (d : dict V) : k ∉ keys d <-> get k d = None.
Proof. rewrite elem_of_keys_get, <-eq_None_not_Some. done. Qed.

Lemma keys_set {V} k (v : V) d :
keys (set k v d) = if decide (k ∈ keys d) then keys d else keys d ++ [k].
Proof.
unfold keys. induction d as [|[k' v'] d IH].
- rewrite decide_False; [done | by intros ?%elem_of_nil].
- cbn [set]. destruct (decide (k' = k)) as [->|Hne].
  + rewrite decide_True; [done | by left].
  + rewrite !fmap_cons, IH. cbn [fst].
    destruct (decide (k ∈ d.*1)) as [Hin|Hnin].
    * rewrite decide_True; [done | by right].
    * rewrite decide_False; [done |].
      intros [?|?]%elem_of_cons; [congruence | done].
Qed.

(** A dictionary never holds a key twice. *)
Lemma NoDup_keys_set {V} k (v : V) d : NoDup (keys d) -> NoDup (keys (set k v d)).
Proof.
intros Hnd. rewrite keys_set. destruct (decide (k ∈ keys d)); [done |].
apply NoDup_app. split_and!; [done | | apply NoDup_singleton].
intros x Hx ->%list_elem_of_singleton. done.
Qed.

Lemma elem_of_keys_set {V} k k' (v : V) d :
k' ∈ keys (set k v d) <-> k' = k ∨ k' ∈ keys d.
Proof.
rewrite keys_set. destruct (decide (k ∈ keys d)) as [Hin|Hnin].
- split; [by right | intros [->|?]; done].
- rewrite elem_of_app, list_elem_of_singleton. tauto.
Qed.

Lemma map_items_ext {V W} (f g : string -> V -> result W) (d : dict V) :
  (forall k v, f k v = g k v) -> map_items f d = map_items g d.
Proof.
  intros Hfg. induction d as [|[k v] d IH]; [done |].
  simpl. by rewrite Hfg, IH.
Qed.

(** A comprehension over the items keeps the keys and their order. *)
Lemma map_items_keys {V W} (f : string -> V -> result W) (d : dict V) d' :
  map_items f d = Ok d' -> keys d' = keys d.
Proof.
  revert d'. induction d as [|[k v] d IH]; intros d'; simpl.
  - by intros [= <-].
  - destruct (f k v); [|done]. simpl.
    destruct (map_items f d) as [d''|]; [|done]. simpl.
    intros [= <-]. specialize (IH d'' eq_refl). unfold keys in *.
    by rewrite !fmap_cons, IH.
Qed.

End PyDictFacts.

(** ** Python arithmetic *)

Lemma py_round_ge (a : Z) (x : Q) : (inject_Z a <= x)%Q -> a <= py_round x.
Proof.
  intros Hax. apply Qfloor_resp_le in Hax. rewrite Qfloor_Z in Hax.
  unfold py_round.
  destruct (x - inject_Z (Qfloor x) ?= 1 # 2)%Q; [destruct (Z.even _) | |]; lia.
Qed.

Lemma py_round_le (x : Q) (b : Z) : (x <= inject_Z b)%Q -> py_round x <= b.
Proof.
  intros Hxb. pose proof (Qfloor_le x) as Hfl.
  pose proof (Qfloor_resp_le _ _ Hxb) as Hfb. rewrite Qfloor_Z in Hfb.
  unfold py_round. destruct (decide (Qfloor x = b)) as [Heq|Hne].
  - assert (x - inject_Z (Qfloor x) == 0)%Q as Hz.
    { rewrite Heq in *. lra. }
    assert ((x - inject_Z (Qfloor x) ?= 1 # 2)%Q = Lt) as ->; [|lia].
    rewrite <-Qlt_alt, Hz. reflexivity.
  - destruct (x - inject_Z (Qfloor x) ?= 1 # 2)%Q;
      [destruct (Z.even _) | |]; lia.
Qed.

Lemma py_round_inject_Z (a : Z) : py_round (inject_Z a) = a.
Proof.
  apply Z.le_antisymm; [apply py_round_le | apply py_round_ge]; lra.
Qed.

(** A value strictly below [b - 1/2] rounds strictly below [b]. *)
Lemma py_round_lt (x : Q) (b : Z) :
  (x < inject_Z b - (1 # 2))%Q -> py_round x < b.
Proof.
  intros Hxb. pose proof (Qfloor_le x) as Hfl.
  pose proof (Qlt_floor x) as Hfu.
  assert (Qfloor x < b) as Hfb.
  { apply Z.lt_nge. intros Hge. rewrite Zle_Qle in Hge. lra. }
  unfold py_round.
  destruct (x - inject_Z (Qfloor x) ?= 1 # 2)%Q eqn:Hc;
    [destruct (Z.even _) | |]; try lia.
  - apply Qeq_alt in Hc. apply Z.lt_nge. intros Hge.
    assert (b <= Qfloor x + 1) as Hb by lia.
    rewrite Zle_Qle, inject_Z_plus in Hb. change (inject_Z 1) with 1%Q in Hb. lra.
  - apply Qgt_alt in Hc. apply Z.lt_nge. intros Hge.
    assert (b <= Qfloor x + 1) as Hb by lia.
    rewrite Zle_Qle, inject_Z_plus in Hb.
    change (inject_Z 1) with 1%Q in Hb. lra.
Qed.

Lemma py_index_elem_of (x : Z) (l : list Z) :
  x ∈ l -> exists i, py_index x l = Ok i /\ l !! i = Some x.
Proof.
  induction l as [|y l IH]; [by intros ?%elem_of_nil |].
  intros Hin. simpl. destruct (decide (y = x)) as [->|Hne].
  - by exists 0%nat.
  - apply elem_of_cons in Hin as [?|Hin]; [congruence |].
    destruct (IH Hin) as (i & -> & Hi). by exists (S i).
Qed.

(** The first hit of a search through an ascending list is the least hit. *)
Lemma find_sorted_least (p : Z -> bool) (l : list Z) (x : Z) :
  StronglySorted Z.le l -> find p l = Some x ->
  x ∈ l /\ p x = true /\ forall y, y ∈ l -> p y = true -> x <= y.
Proof.
  induction 1 as [|z l Hs IH Hz]; [done |].
  simpl. destruct (p z) eqn:Hpz.
  - intros [= ->]. split_and!; [apply list_elem_of_here | done |].
    intros y [->|Hy]%elem_of_cons _; [lia |].
    rewrite Forall_forall in Hz. by apply Hz.
  - intros Hf. destruct (IH Hf) as (Hin & Hpx & Hmin).
    split_and!; [by apply list_elem_of_further | done |].
    intros y [->|Hy]%elem_of_cons Hpy; [congruence | by apply Hmin].
Qed.

Lemma find_none_all (p : Z -> bool) (l : list Z) :
  find p l = None -> forall y, y ∈ l -> p y = false.
Proof.
  intros Hf y Hy. apply (find_none p l Hf). by apply list_elem_of_In.
Qed.

(** ** Block mode *)

Module BlockFacts.
Import Block.

(** Unfolds the monadic plumbing of an operation. *)
Ltac unfold_monad :=
  unfold assert_pico_ok in *;
  unfold bind, lift, ret, raise, gets, modify, attr, driver_call, sleep,
    log in *.

Lemma allowed_ranges_sorted : StronglySorted Z.le allowed_ranges.
Proof.
  unfold allowed_ranges.
  repeat (constructor; [| repeat (constructor; [lia |]); constructor]).
  constructor.
Qed.

(** The choice of [coerce_channel_range]: an index of the table, whose
    entry is the least one that is at least [|r|], and the last one when
    there is none. *)
Lemma coerce_channel_range_choice (channel_range_mv : Q) :
  exists (i : nat) (R : Z),
    coerce_channel_range channel_range_mv = Ok i /\
    allowed_ranges !! i = Some R /\
    (forall y, y ∈ allowed_ranges ->
       (Qabs channel_range_mv <= inject_Z y)%Q ->
       (Qabs channel_range_mv <= inject_Z R)%Q /\ R <= y) /\
    ((forall y, y ∈ allowed_ranges ->
        (inject_Z y < Qabs channel_range_mv)%Q) -> R = 50000).
Proof.
  set (p := fun x => Qle_bool (Qabs channel_range_mv) (inject_Z x)).
  assert (exists R, R ∈ allowed_ranges /\
            match find p allowed_ranges with
            | Some x => Some x
            | None => last allowed_ranges
            end = Some R /\
            (forall y, y ∈ allowed_ranges -> p y = true ->
               p R = true /\ R <= y) /\
            ((forall y, y ∈ allowed_ranges -> p y = false) -> R = 50000))
    as (R & HR & Hsel & Hleast & Hmax).
  { destruct (find p allowed_ranges) as [x|] eqn:Hf.
    - destruct (find_sorted_least p _ x allowed_ranges_sorted Hf)
        as (Hin & Hpx & Hmin).
      exists x. split_and!; [done | done | by auto |].
      intros Hall. rewrite (Hall x Hin) in Hpx. done.
    - exists 50000. split_and!; [| done | | done].
      + unfold allowed_ranges. rewrite !elem_of_cons. tauto.
      + intros y Hy Hpy. rewrite (find_none_all p _ Hf y Hy) in Hpy. done. }
  destruct (py_index_elem_of R allowed_ranges HR) as (i & Hi & Hlook).
  assert (coerce_channel_range channel_range_mv = Ok i) as Hco.
  { unfold coerce_channel_range. fold p. by rewrite Hsel. }
  exists i, R. split_and!; [done | done | |].
  - intros y Hy Hle. apply Qle_bool_iff in Hle.
    destruct (Hleast y Hy Hle) as [HpR ?]. split; [|done].
    by apply Qle_bool_iff.
  - intros Hall. apply Hmax. intros y Hy.
    destruct (p y) eqn:Hpy; [|done].
    apply Qle_bool_iff in Hpy. specialize (Hall y Hy). lra.
Qed.

(** [setup_channel] unfolded: coercion, channel lookup, one driver call,
    and the registration when the driver accepts. *)
Lemma setup_channel_run name offset range coupling self w :
  setup_channel name offset range coupling self w =
  match coerce_channel_range range with
  | Err e => (Raised e, self, w)
  | Ok idx =>
      match channel_code name with
      | Err e => (Raised e, self, w)
      | Ok code =>
          let c := ps4000aSetChannel code 1 coupling idx offset in
          match script w with
          | [] => (Waiting, self, log (Driver c None) w)
          | r :: rest =>
              let w' :=
                {| script := rest; trace := trace w ++ [Driver c (Some r)] |} in
              if decide (status r = 0)
              then (Returned tt, register_channel name idx self, w')
              else (Raised (PicoSDKCtypesError (status r)), self, w')
          end
      end
  end.
Proof.
  unfold setup_channel. unfold_monad.
  destruct (coerce_channel_range range); [|done].
  destruct (channel_code name); [|done].
  destruct (script w); [done |].
  by destruct (decide _).
Qed.

(** C1. For every requested range [r], [coerce_channel_range] returns an
    index [i] of the table, whose entry [R] is the least supported range
    that is at least [|r|], and 50000 when [|r|] exceeds every entry.
    [setup_channel] with that request, for a channel name of the enumeration
    and a driver that answers, issues the one call [ps4000aSetChannel] with
    the range index [i]; when the driver accepts it the operation returns
    and has appended the name to the active channels and stored [i] as the
    range of the channel, and when the driver refuses it the operation
    raises the driver's status and the session is as before. *)
Theorem coerce_channel_range_least (channel_range_mv : Q) :
  exists (i : nat) (R : Z),
    coerce_channel_range channel_range_mv = Ok i /\
    allowed_ranges !! i = Some R /\
    (forall y, y ∈ allowed_ranges ->
       (Qabs channel_range_mv <= inject_Z y)%Q ->
       (Qabs channel_range_mv <= inject_Z R)%Q /\ R <= y) /\
    ((forall y, y ∈ allowed_ranges ->
        (inject_Z y < Qabs channel_range_mv)%Q) -> R = 50000) /\
    (forall name code offset coupling self r rest tr,
       channel_code name = Ok code ->
       let w' :=
         {| script := rest;
            trace := tr ++ [Driver (ps4000aSetChannel code 1 coupling i offset)
                              (Some r)] |} in
       let self' := register_channel name i self in
       setup_channel name offset channel_range_mv coupling self
         {| script := r :: rest; trace := tr |} =
       (if decide (status r = 0) then (Returned tt, self', w')
        else (Raised (PicoSDKCtypesError (status r)), self, w')) /\
       PyDict.get name (channel_ranges self') = Some i /\
       active_channels self' = active_channels self ++ [name] /\
       result_bind (py_dict_getitem (channel_ranges self') name)
         (py_getitem allowed_ranges) = Ok R).
Proof.
  destruct (coerce_channel_range_choice channel_range_mv)
    as (i & R & Hco & Hl & Hleast & Hmax).
  exists i, R. split_and!; [done | done | done | done |].
  intros name code offset coupling self r rest tr Hcode w' self'.
  assert (PyDict.get name (channel_ranges self') = Some i) as Hget
    by apply PyDictFacts.get_set_eq.
  split_and!; [| done | done |].
  - rewrite setup_channel_run, Hco, Hcode. done.
  - unfold py_dict_getitem, py_getitem. rewrite Hget. cbn [result_bind].
    by rewrite Hl.
Qed.

(** A request of -1500 mV for channel A resolves to 2000 mV, index 7. *)
Lemma coerce_channel_range_least_witness :
  coerce_channel_range (-1500) = Ok 7%nat /\
  setup_channel "A" 0 (-1500) true (new_session 32767)
    {| script := [Scenario.ok]; trace := [] |} =
  (Returned tt, register_channel "A" 7 (new_session 32767),
   {| script := [];
      trace := [Driver (ps4000aSetChannel 0 1 true 7 0) (Some Scenario.ok)] |}).
Proof.
  destruct (coerce_channel_range_least (-1500))
    as (i & R & Hi & _ & _ & _ & Hrun).
  assert (i = 7%nat) as -> by (vm_compute in Hi; congruence).
  split; [exact Hi |].
  destruct (Hrun "A"%string 0 0%Q true (new_session 32767) Scenario.ok [] []
              eq_refl) as [Hcall _].
  exact Hcall.
Defined.

(** *** [setup_trigger] *)

(** The conversion helper reads the same table as the wrapper. *)
Lemma channelInputRanges_allowed : channelInputRanges = allowed_ranges.
Proof. reflexivity. Qed.

Lemma allowed_ranges_pos (idx : nat) (R : Z) :
  allowed_ranges !! idx = Some R -> 0 < R.
Proof.
  intros Hl. apply list_elem_of_lookup_2 in Hl. revert Hl.
  unfold allowed_ranges. rewrite !elem_of_cons, elem_of_nil. lia.
Qed.

(** [setup_trigger] unfolded: conversion, channel lookup, one driver call. *)
Lemma setup_trigger_run self src t dir delay auto w :
  setup_trigger src t dir delay auto self w =
  match convert_trigger_units self src t with
  | Err e => (Raised e, self, w)
  | Ok adc =>
      match channel_code src with
      | Err e => (Raised e, self, w)
      | Ok ch =>
          let c := ps4000aSetSimpleTrigger 1 ch adc dir delay auto in
          match script w with
          | [] => (Waiting, self, log (Driver c None) w)
          | r :: rest =>
              (if decide (status r = 0) then Returned tt
               else Raised (PicoSDKCtypesError (status r)),
               self,
               {| script := rest; trace := trace w ++ [Driver c (Some r)] |})
          end
      end
  end.
Proof.
  unfold setup_trigger. unfold_monad. cbv beta iota delta [id].
  destruct (convert_trigger_units self src t); [|done].
  destruct (channel_code src); [|done].
  destruct (script w); [done |].
  by destruct (decide _).
Qed.

(** What the conversion does on a configured channel. *)
Lemma convert_trigger_units_configured self src idx R t :
  PyDict.get src (channel_ranges self) = Some idx ->
  allowed_ranges !! idx = Some R ->
  convert_trigger_units self src t =
  if Qle_bool (inject_Z R) t then Err SystemExit
  else Ok (py_round (t / inject_Z R * inject_Z (max_ADC self))).
Proof.
  intros Hget Hl. unfold convert_trigger_units, mV2adc, py_getitem.
  rewrite Hget, channelInputRanges_allowed, Hl. simpl.
  by destruct (Qle_bool _ _).
Qed.

(** The conversion exits exactly on the two configuration errors. *)
Lemma convert_trigger_units_exit self src t :
  convert_trigger_units self src t = Err SystemExit <->
  PyDict.get src (channel_ranges self) = None \/
  exists idx R,
    PyDict.get src (channel_ranges self) = Some idx /\
    allowed_ranges !! idx = Some R /\ (inject_Z R <= t)%Q.
Proof.
  destruct (PyDict.get src (channel_ranges self)) as [idx|] eqn:Hget.
  - destruct (allowed_ranges !! idx) as [R|] eqn:Hl.
    + rewrite (convert_trigger_units_configured _ _ _ _ _ Hget Hl).
      destruct (Qle_bool (inject_Z R) t) eqn:Hle.
      * apply Qle_bool_iff in Hle. split; [|done].
        intros _. right. by exists idx, R.
      * split; [done |]. intros [?|(idx' & R' & [= <-] & HR' & Hle')];
          [done |]. rewrite Hl in HR'. injection HR' as <-.
        apply Qle_bool_iff in Hle'. congruence.
    + unfold convert_trigger_units, py_getitem. rewrite Hget, Hl. simpl.
      split; [done |]. intros [?|(idx' & R' & [= <-] & HR' & _)]; [done|].
      congruence.
  - unfold convert_trigger_units. rewrite Hget. split; [by left | done].
Qed.

Lemma py_round_comp (x y : Q) : (x == y)%Q -> py_round x = py_round y.
Proof.
  intros Hxy. unfold py_round. rewrite (Qfloor_comp _ _ Hxy).
  assert ((x - inject_Z (Qfloor y) ?= 1 # 2)%Q
          = (y - inject_Z (Qfloor y) ?= 1 # 2)%Q) as ->; [|done].
  by rewrite Hxy.
Qed.

(** A threshold below the range, as a fraction of the range. *)
Lemma threshold_fraction (t : Q) (R : Z) :
  0 < R -> exists q : Q, (q == t / inject_Z R)%Q /\ (q * inject_Z R == t)%Q.
Proof.
  intros HR. exists (t / inject_Z R)%Q. split; [reflexivity |].
  assert (0 < inject_Z R)%Q as HRq by (rewrite Zlt_Qlt in HR; exact HR).
  field. lra.
Qed.

(** C2, amended. For a threshold [0 <= t < R] on a configured channel and a
    non-negative full-scale count, the conversion gives
    [round(t / R * maxAdc)], which lies in [0, maxAdc]; it is strictly below
    [maxAdc] when [2 (R - t) maxAdc > R]. *)
Theorem convert_trigger_units_bounds self src idx R (t : Q) :
  PyDict.get src (channel_ranges self) = Some idx ->
  allowed_ranges !! idx = Some R ->
  0 <= max_ADC self ->
  (0 <= t)%Q -> (t < inject_Z R)%Q ->
  exists adc,
    convert_trigger_units self src t = Ok adc /\
    adc = py_round (t / inject_Z R * inject_Z (max_ADC self)) /\
    0 <= adc <= max_ADC self /\
    ((inject_Z R < 2 * (inject_Z R - t) * inject_Z (max_ADC self))%Q ->
     adc < max_ADC self).
Proof.
  intros Hget Hl HM Ht0 HtR.
  pose proof (allowed_ranges_pos _ _ Hl) as HR.
  assert (0 < inject_Z R)%Q as HRq by (rewrite Zlt_Qlt in HR; exact HR).
  assert (0 <= inject_Z (max_ADC self))%Q as HMq
    by (rewrite Zle_Qle in HM; exact HM).
  eexists. split.
  { rewrite (convert_trigger_units_configured _ _ _ _ _ Hget Hl).
    destruct (Qle_bool (inject_Z R) t) eqn:Hle; [|reflexivity].
    apply Qle_bool_iff in Hle. lra. }
  split; [reflexivity |].
  destruct (threshold_fraction t R HR) as (q & Hq & HqR).
  rewrite <-(py_round_comp (q * inject_Z (max_ADC self)))
    by (by rewrite Hq).
  assert (0 <= q)%Q as Hq0 by nra.
  assert (q < 1)%Q as Hq1 by nra.
  split_and!.
  - apply py_round_ge. change (inject_Z 0) with 0%Q. nra.
  - apply py_round_le. nra.
  - intros Hstrict. apply py_round_lt. rewrite <-HqR in Hstrict. nra.
Qed.

Lemma convert_trigger_units_bounds_witness :
  exists adc,
    convert_trigger_units Scenario.session_AB "B" 1500 = Ok adc /\
    adc = py_round (1500 / inject_Z 2000 * inject_Z 32767) /\
    0 <= adc <= 32767 /\
    ((inject_Z 2000 < 2 * (inject_Z 2000 - 1500) * inject_Z 32767)%Q ->
     adc < 32767).
Proof.
  apply (convert_trigger_units_bounds Scenario.session_AB "B" 7%nat 2000 1500);
    [reflexivity | reflexivity | simpl; lia | lra | reflexivity].
Defined.

(** C2 as stated fails. On channel A at 2000 mV with full scale 32767, the
    threshold -2000 mV is below the range and converts to -32767, and the
    threshold 1999.99 mV is below the range and converts to 32767. *)
Lemma convert_trigger_units_range_counterexample :
  convert_trigger_units Scenario.session_AB "A" (-2000) = Ok (-32767) /\
  convert_trigger_units Scenario.session_AB "A" (199999 # 100) = Ok 32767 /\
  ~ (forall self src idx R (t : Q),
       PyDict.get src (channel_ranges self) = Some idx ->
       allowed_ranges !! idx = Some R ->
       (t < inject_Z R)%Q ->
       exists adc,
         convert_trigger_units self src t = Ok adc /\
         adc = py_round (t / inject_Z R * inject_Z (max_ADC self)) /\
         0 <= adc < max_ADC self).
Proof.
  split_and!; [reflexivity | reflexivity |].
  intros Hclaim.
  destruct (Hclaim Scenario.session_AB "A"%string 7%nat 2000 (-2000)%Q)
    as (adc & Hadc & _ & Hlo & _); [reflexivity | reflexivity | reflexivity |].
  vm_compute in Hadc. injection Hadc as <-. lia.
Qed.

(** C5, amended. A trigger on a channel that was never configured, or with
    a threshold at or above the channel's range, is caught before any driver
    call: the session, the driver script and the trace are untouched.  The
    outcome is [SystemExit], the exception of [sys.exit()], which ends the
    program. *)
Theorem setup_trigger_config_error self src (t : Q) dir delay auto w :
  (PyDict.get src (channel_ranges self) = None \/
   exists idx R,
     PyDict.get src (channel_ranges self) = Some idx /\
     allowed_ranges !! idx = Some R /\ (inject_Z R <= t)%Q) ->
  setup_trigger src t dir delay auto self w = (Raised SystemExit, self, w).
Proof.
  intros Herr. apply convert_trigger_units_exit in Herr.
  by rewrite setup_trigger_run, Herr.
Qed.

Lemma setup_trigger_config_error_witness :
  setup_trigger "A" 2000 2 0 0 Scenario.session_AB (Scenario.quiet [])
  = (Raised SystemExit, Scenario.session_AB, Scenario.quiet []).
Proof.
  apply (setup_trigger_config_error Scenario.session_AB "A" 2000 2 0 0).
  right. exists 7%nat, 2000.
  split_and!; [reflexivity | reflexivity | unfold Qle; simpl; lia].
Defined.

(** C5 as stated fails. Scenario C: a trigger on channel C of a session
    that never configured it ends in [SystemExit], not in an error the
    caller is meant to handle. *)
Lemma setup_trigger_exit_counterexample :
  setup_trigger "C" 100 2 0 0 (new_session 32767) (Scenario.quiet [])
  = (Raised SystemExit, new_session 32767, Scenario.quiet []) /\
  ~ (forall self src (t : Q) dir delay auto w,
       PyDict.get src (channel_ranges self) = None ->
       exists e,
         setup_trigger src t dir delay auto self w = (Raised e, self, w) /\
         e <> SystemExit).
Proof.
  split; [reflexivity |]. intros Hclaim.
  destruct (Hclaim (new_session 32767) "C"%string 100%Q 2 0 0
              (Scenario.quiet [])) as (e & Hrun & Hne); [reflexivity |].
  vm_compute in Hrun. congruence.
Qed.

Lemma channel_code_error name e : channel_code name = Err e -> e = KeyError.
Proof.
  unfold channel_code, py_dict_getitem. destruct (PyDict.get _ _); congruence.
Qed.

(** C10. [setup_trigger] exits exactly when the source channel is not
    configured or its range [R] is at most the threshold.  A negative
    threshold on a configured channel passes: the one driver call of the
    operation is [ps4000aSetSimpleTrigger] with the threshold
    [round(t / R * maxAdc)], and the operation returns when the driver
    accepts it.  For [t <= -R] and a non-negative [maxAdc] that threshold is
    at most [-maxAdc]. *)
Theorem setup_trigger_one_sided self src (t : Q) dir delay auto w :
  ((setup_trigger src t dir delay auto self w).1.1 = Raised SystemExit <->
   PyDict.get src (channel_ranges self) = None \/
   exists idx R,
     PyDict.get src (channel_ranges self) = Some idx /\
     allowed_ranges !! idx = Some R /\ (inject_Z R <= t)%Q) /\
  (forall idx R ch r rest,
     PyDict.get src (channel_ranges self) = Some idx ->
     allowed_ranges !! idx = Some R ->
     channel_code src = Ok ch ->
     script w = r :: rest ->
     (t < 0)%Q ->
     let adc := py_round (t / inject_Z R * inject_Z (max_ADC self)) in
     setup_trigger src t dir delay auto self w =
       (if decide (status r = 0) then Returned tt
        else Raised (PicoSDKCtypesError (status r)),
        self,
        {| script := rest;
           trace := trace w ++
             [Driver (ps4000aSetSimpleTrigger 1 ch adc dir delay auto)
                (Some r)] |}) /\
     ((t <= - inject_Z R)%Q -> 0 <= max_ADC self -> adc <= - max_ADC self)).
Proof.
  split.
  - rewrite <-convert_trigger_units_exit, setup_trigger_run.
    destruct (convert_trigger_units self src t) as [adc|e].
    + split; [|done]. intros Hexit. exfalso.
      destruct (channel_code src) as [ch|e] eqn:Hch.
      * destruct (script w); [done |]. cbv zeta in Hexit.
        cbn [fst] in Hexit. by destruct (decide _).
      * apply channel_code_error in Hch. cbn [fst] in Hexit. congruence.
    + cbn [fst]. split; congruence.
  - intros idx R ch r rest Hget Hl Hch Hscr Ht adc.
    pose proof (allowed_ranges_pos _ _ Hl) as HR.
    assert (0 < inject_Z R)%Q as HRq by (rewrite Zlt_Qlt in HR; exact HR).
    split.
    + rewrite setup_trigger_run,
        (convert_trigger_units_configured _ _ _ _ _ Hget Hl), Hch, Hscr.
      destruct (Qle_bool (inject_Z R) t) eqn:Hle; [|done].
      apply Qle_bool_iff in Hle. lra.
    + intros HtR HM. unfold adc.
      destruct (threshold_fraction t R HR) as (q & Hq & HqR).
      rewrite <-(py_round_comp (q * inject_Z (max_ADC self)))
        by (by rewrite Hq).
      apply py_round_le. rewrite Zle_Qle in HM.
      change (inject_Z 0) with 0%Q in HM. rewrite inject_Z_opp.
      assert (q <= -1)%Q by nra. nra.
Qed.

Lemma setup_trigger_one_sided_witness :
  setup_trigger "A" (-2500) 2 0 0 Scenario.session_AB
    {| script := [Scenario.ok]; trace := [] |} =
  (Returned tt, Scenario.session_AB,
   {| script := [];
      trace := [Driver (ps4000aSetSimpleTrigger 1 0 (-40959) 2 0 0)
                  (Some Scenario.ok)] |}) /\
  -40959 <= -32767.
Proof.
  destruct (setup_trigger_one_sided Scenario.session_AB "A" (-2500) 2 0 0
              {| script := [Scenario.ok]; trace := [] |}) as [_ Hpass].
  destruct (Hpass 7%nat 2000 0 Scenario.ok [])
    as [Hrun Hbound]; [reflexivity .. |].
  split; [exact Hrun |]. apply Hbound; [unfold Qle; simpl; lia | simpl; lia].
Defined.

(** *** [setup_block] *)


(** The plan [setup_block] stores: the pre-trigger count is
    [floor(block_size * pre_trigger_percent)] and the two counts add up to
    the block size.  It is stored before the driver is asked, so it is there
    whatever the driver answers. *)
Lemma setup_block_plan (block_size : Z) (block_duration pre_trigger_percent : Q)
    self w tb :
  convert_timebase block_size block_duration = Ok tb ->
  let self' := (setup_block block_size block_duration pre_trigger_percent
                  self w).1.2 in
  timebase self' = Some tb /\
  Block.block_size self' = Some block_size /\
  pre_trigger_samples self'
    = Some (Qfloor (inject_Z block_size * pre_trigger_percent)) /\
  exists pre post,
    pre_trigger_samples self' = Some pre /\
    post_trigger_samples self' = Some post /\
    pre + post = block_size.
Proof.
  intros Htb. unfold setup_block. unfold_monad. rewrite Htb. simpl.
  destruct (script w); simpl.
  - split_and!; [done .. |]. eexists _, _. split_and!; [done | done | lia].
  - destruct (decide _); simpl;
      (split_and!; [done .. |]; eexists _, _; split_and!; [done | done | lia]).
Qed.

(** C3, where the code departs from it. A block of one sample has sampling
    rate 0 and [400e6 / sampling_rate] raises [ZeroDivisionError]: no
    timebase is chosen, nothing is stored and the driver is not asked.  A
    block of two samples over 128 s gives the code 51199999999, which is
    beyond the 32 bits of a driver timebase but inside the window
    [0, 2e32 - 1] the code tests, so it is used and not replaced by 3999. *)
Theorem setup_block_divergence :
  (forall self w,
     setup_block 1 1 0 self w = (Raised ZeroDivisionError, self, w)) /\
  (let run := setup_block 2 128 0 Scenario.session_AB
                {| script := [Scenario.ok]; trace := [] |} in
   run.1.1 = Returned tt /\
   timebase run.1.2 = Some 51199999999 /\
   trace run.2 = [Driver (ps4000aGetTimebase2 51199999999 2)
                    (Some Scenario.ok)] /\
   2 ^ 32 - 1 < 51199999999).
Proof.
  split; [done |]. vm_compute. split_and!; congruence.
Qed.

(** *** [run_block] *)

Lemma set_buffers_id self : set_buffers (buffers self) self = self.
Proof. by destruct self. Qed.

(** The loop of [run_block] when the driver answers every call: one
    set-data-buffers call per entry of the list, whatever the statuses. *)
Lemma set_data_buffers_run channels : forall status0 self w rs rest n,
  block_size self = Some n -> 0 <= n ->
  (forall c, c ∈ channels -> exists code, channel_code c = Ok code) ->
  script w = rs ++ rest -> length rs = length channels ->
  set_data_buffers channels status0 self w =
  (Returned (status_after rs status0),
   set_buffers (fresh_buffers n channels (buffers self)) self,
   {| script := rest;
      trace := trace w ++
        zip_with (fun c r =>
                    Driver (ps4000aSetDataBuffers (code_of c) n) (Some r))
          channels rs |}).
Proof.
  induction channels as [|c channels IH];
    intros status0 self w rs rest n Hn Hn0 Hcodes Hscr Hlen.
  - destruct rs; [|done]. simpl in *. unfold ret.
    rewrite set_buffers_id, app_nil_r. by destruct w; simpl in *; subst.
  - destruct rs as [|r rs]; [done |]. simpl in Hlen, Hscr.
    destruct (Hcodes c) as [code Hcode]; [apply list_elem_of_here |].
    cbn [set_data_buffers]. unfold_monad. rewrite Hn.
    unfold c_int16_array. rewrite decide_False by lia.
    rewrite Hcode, Hscr.
    erewrite (IH _ _ _ rs rest n); simpl; [| done | done | | done | lia].
    + unfold code_of at 2. rewrite Hcode.
      by rewrite <-app_assoc.
    + intros c' Hc'. apply Hcodes. by apply list_elem_of_further.
Qed.

(** [run_block] when the driver answers every call and accepts the last
    set-data-buffers call and the run request.  The statuses of the earlier
    set-data-buffers calls play no part. *)
Lemma run_block_run self w rs r_last r_run rest n pre post tb :
  block_size self = Some n -> 0 <= n ->
  pre_trigger_samples self = Some pre ->
  post_trigger_samples self = Some post ->
  timebase self = Some tb ->
  (forall c, c ∈ active_channels self -> exists code, channel_code c = Ok code) ->
  script w = rs ++ r_last :: r_run :: rest ->
  S (length rs) = length (active_channels self) ->
  status r_last = 0 -> status r_run = 0 ->
  run_block self w =
  (Returned tt,
   set_buffers (fresh_buffers n (active_channels self) (buffers self)) self,
   {| script := rest;
      trace := trace w ++
        zip_with (fun c r =>
                    Driver (ps4000aSetDataBuffers (code_of c) n) (Some r))
          (active_channels self) (rs ++ [r_last]) ++
        [Driver (ps4000aRunBlock pre post tb) (Some r_run)] |}).
Proof.
  intros Hn Hn0 Hpre Hpost Htb Hcodes Hscr Hlen Hlast Hrun.
  unfold run_block. unfold bind at 1. unfold gets at 1. unfold bind at 1.
  rewrite (set_data_buffers_run _ _ _ _ (rs ++ [r_last]) (r_run :: rest) n);
    [| done | done | done | by rewrite <-app_assoc
     | rewrite length_app; simpl; lia].
  unfold status_after. rewrite fold_left_app. simpl. rewrite Hlast.
  unfold_monad. simpl. rewrite Hpre. simpl. rewrite Hpost. simpl.
  rewrite Htb. simpl. rewrite Hrun. simpl.
  by rewrite <-app_assoc.
Qed.

(** *** [get_block_traces] *)

(** The polling loop: it calls [ps4000aIsReady] until one call sets the
    flag, at once after each other, and does not look at the statuses. *)
Lemma is_ready_loop_run polls : forall r_ready rest tr,
  Forall (fun p => ready_after p 0 = 0) polls ->
  ready_after r_ready 0 <> 0 ->
  is_ready_loop 0 (polls ++ r_ready :: rest) tr =
  (Returned tt,
   {| script := rest;
      trace := tr ++ ((fun p => Driver ps4000aIsReady (Some p))
                        <$> polls ++ [r_ready]) |}).
Proof.
  induction polls as [|p polls IH]; intros r_ready rest tr Hpolls Hready.
  - cbn [is_ready_loop app]. rewrite decide_True by done.
    destruct rest; cbn [is_ready_loop]; by rewrite decide_False.
  - apply Forall_cons in Hpolls as [Hp Hpolls].
    cbn [is_ready_loop app]. rewrite decide_True by done. rewrite Hp.
    rewrite (IH _ _ _ Hpolls Hready). cbn [fmap list_fmap app].
    by rewrite <-app_assoc.
Qed.

(** A driver that never sets the flag keeps the loop polling. *)
Lemma is_ready_loop_waiting polls : forall tr,
  Forall (fun p => ready_after p 0 = 0) polls ->
  is_ready_loop 0 polls tr =
  (Waiting,
   {| script := [];
      trace := tr ++ ((fun p => Driver ps4000aIsReady (Some p)) <$> polls)
                  ++ [Driver ps4000aIsReady None] |}).
Proof.
  induction polls as [|p polls IH]; intros tr Hpolls.
  - cbn [is_ready_loop]. by rewrite decide_True.
  - apply Forall_cons in Hpolls as [Hp Hpolls].
    cbn [is_ready_loop]. rewrite decide_True by done.
    rewrite Hp, (IH _ Hpolls). cbn [fmap list_fmap app].
    by rewrite <-!app_assoc.
Qed.

(** [get_block_traces] when the driver sets the ready flag at some poll and
    then answers the request for the values. *)
Lemma get_block_traces_run self w polls r_ready r_values rest n :
  block_size self = Some n ->
  script w = polls ++ r_ready :: r_values :: rest ->
  Forall (fun p => ready_after p 0 = 0) polls ->
  ready_after r_ready 0 <> 0 ->
  get_block_traces self w =
  let filled := set_buffers (driver_fill r_values (buffers self)) self in
  let w' :=
    {| script := rest;
       trace := (trace w ++ ((fun p => Driver ps4000aIsReady (Some p))
                               <$> polls ++ [r_ready]))
                  ++ [Driver (ps4000aGetValues n) (Some r_values)] |} in
  if decide (status r_values = 0) then
    match PyDict.map_items (convert_entry filled) (buffers filled) with
    | Ok converted =>
        (Returned converted,
         set_voltage_unit "mV" (set_buffers converted filled), w')
    | Err e => (Raised e, filled, w')
    end
  else (Raised (PicoSDKCtypesError (status r_values)), filled, w').
Proof.
  intros Hn Hscr Hpolls Hready.
  unfold get_block_traces, wait_until_ready, bind at 1.
  rewrite Hscr, (is_ready_loop_run _ _ _ _ Hpolls Hready).
  unfold convert_ADC_units. unfold_monad. simpl. rewrite Hn. simpl.
  destruct (decide (status r_values = 0)); [|done]. simpl.
  by destruct (PyDict.map_items _ _).
Qed.

(** The conversion of an entry reads the session's ranges and full-scale
    count and nothing else. *)
Lemma convert_entry_ext self self' chl buffer :
  channel_ranges self' = channel_ranges self ->
  max_ADC self' = max_ADC self ->
  convert_entry self' chl buffer = convert_entry self chl buffer.
Proof. intros Hr HM. unfold convert_entry. by rewrite Hr, HM. Qed.

(** An entry that was converted is a list of floats and can be converted
    again: the second conversion scales it once more. *)
Lemma convert_entry_again self chl buffer x1 :
  convert_entry self chl buffer = Ok x1 ->
  exists x2,
    convert_entry self chl x1 = Ok x2 /\ rescaled self (chl, x1) (chl, x2).
Proof.
  unfold convert_entry, py_dict_getitem, adc2mV, py_getitem.
  destruct (PyDict.get chl (channel_ranges self)) as [idx|] eqn:Hget;
    [|done]. simpl.
  destruct (channelInputRanges !! idx) as [R|] eqn:Hl; [|done]. simpl.
  destruct (samples_of buffer) as [|x xs] eqn:Hs.
  - intros [= <-]. simpl. eexists. split; [done |].
    split; [done |]. by exists idx, R, [].
  - destruct (decide (max_ADC self = 0)) as [|HM]; [done |].
    intros [= <-]. simpl.
    eexists. split; [done |]. split; [done |].
    eexists idx, R, _. by split_and!.
Qed.

Lemma map_items_convert_again self bufs : forall b1,
  PyDict.map_items (convert_entry self) bufs = Ok b1 ->
  exists b2,
    PyDict.map_items (convert_entry self) b1 = Ok b2 /\
    Forall2 (rescaled self) b1 b2 /\
    Forall (fun e => exists v, e.2 = FloatList v) b1.
Proof.
  induction bufs as [|[chl buffer] bufs IH]; intros b1; simpl.
  - intros [= <-]. exists []. by split_and!.
  - destruct (convert_entry self chl buffer) as [x1|] eqn:Hx1; [|done].
    simpl. destruct (PyDict.map_items _ bufs) as [b1'|]; [|done]. simpl.
    intros [= <-].
    destruct (convert_entry_again _ _ _ _ Hx1) as (x2 & Hx2 & Hres).
    destruct (IH b1' eq_refl) as (b2' & Hb2' & Hall & Hfl).
    exists ((chl, x2) :: b2'). simpl. rewrite Hx2. simpl. rewrite Hb2'.
    split_and!; [done | by constructor |].
    constructor; [|done]. destruct Hres as (_ & ? & ? & v & _ & _ & ? & _).
    by exists v.
Qed.

(** The driver cannot reach buffers that have been converted. *)
Lemma driver_fill_converted r bufs :
  Forall (fun e : string * pybuf => exists v, e.2 = FloatList v) bufs ->
  driver_fill r bufs = bufs.
Proof.
  intros Hfl. unfold driver_fill. destruct (delivered r); try done.
  induction Hfl as [|[chl b] bufs [v Hv] _ IH]; [done |].
  rewrite fmap_cons, IH. simpl in Hv. by subst b.
Qed.

(** What a [get_block_traces] that returned has left behind. *)
Lemma get_block_traces_returned self w b1 self1 w1 :
  get_block_traces self w = (Returned b1, self1, w1) ->
  buffers self1 = b1 /\
  channel_ranges self1 = channel_ranges self /\
  max_ADC self1 = max_ADC self /\
  block_size self1 = block_size self /\
  is_Some (block_size self) /\
  voltage_unit self1 = Some "mV"%string /\
  exists r,
    PyDict.map_items (convert_entry self) (driver_fill r (buffers self))
    = Ok b1.
Proof.
  unfold get_block_traces, wait_until_ready, bind at 1.
  destruct (is_ready_loop 0 (script w) (trace w)) as [[[]| |] w'];
    [|done..].
  unfold convert_ADC_units. unfold_monad.
  cbv beta iota delta [id].
  destruct (block_size self) as [n|] eqn:Hn; [|done].
  destruct (script w') as [|r scr']; [done |].
  cbn [buffers set_buffers].
  destruct (decide (status r = 0)); [|done].
  cbv beta iota zeta delta [ret]. cbn [buffers set_buffers].
  rewrite (PyDictFacts.map_items_ext _ (convert_entry self)
             (driver_fill r (buffers self)))
    by (intros; by apply convert_entry_ext).
  destruct (PyDict.map_items (convert_entry self) _) as [conv|] eqn:Hconv;
    [|done].
  intros [= <- <- _]. cbn. split_and!; try done. by exists r.
Qed.

(** C9. Once [get_block_traces] has returned, a second call on the session
    it left returns as soon as the driver reports ready and hands over the
    values, and every entry of its result is the entry of the first result
    put through the ADC-to-millivolt scaling of its channel once more. *)
Theorem get_block_traces_twice self w b1 self1 w1 polls r_ready r_values
    rest tr :
  get_block_traces self w = (Returned b1, self1, w1) ->
  Forall (fun p => ready_after p 0 = 0) polls ->
  ready_after r_ready 0 <> 0 ->
  status r_values = 0 ->
  exists b2 self2 w2,
    get_block_traces self1
      {| script := polls ++ r_ready :: r_values :: rest; trace := tr |}
    = (Returned b2, self2, w2) /\
    Forall2 (rescaled self1) b1 b2.
Proof.
  intros Hfirst Hpolls Hready Hok.
  destruct (get_block_traces_returned _ _ _ _ _ Hfirst)
    as (Hb1 & Hranges & HM & Hbs & [n Hn] & _ & r & Hconv).
  destruct (map_items_convert_again _ _ _ Hconv) as (b2 & Hb2 & Hres & Hfl).
  rewrite Hn in Hbs.
  rewrite (get_block_traces_run self1 _ polls r_ready r_values rest n);
    [| done | done | done | done].
  cbv zeta. rewrite decide_True by done. cbn [buffers set_buffers].
  rewrite Hb1, (driver_fill_converted _ _ Hfl).
  rewrite (PyDictFacts.map_items_ext _ (convert_entry self))
    by (intros; by apply convert_entry_ext).
  rewrite Hb2. eexists _, _, _. split; [done |].
  eapply Forall2_impl; [exact Hres |].
  intros e1 e2 (Hk & idx & R & v & Hget & Hl & He1 & He2).
  split; [done |]. exists idx, R, v. by rewrite Hranges, HM.
Qed.

Lemma get_block_traces_twice_witness :
  exists b1 self1 b2 self2 w2,
    (get_block_traces Scenario.session_armed
       {| script := [Scenario.ready; Scenario.captured]; trace := [] |}).1
    = (Returned b1, self1) /\
    get_block_traces self1
      {| script := [] ++ Scenario.ready :: Scenario.ok :: []; trace := [] |}
    = (Returned b2, self2, w2) /\
    Forall2 (rescaled self1) b1 b2 /\
    PyDict.get "A" b1
    = Some (FloatList [200000 # 32767; 400000 # 32767; -600000 # 32767;
                       65534000 # 32767]) /\
    PyDict.get "A" b2 <> PyDict.get "A" b1.
Proof.
  eexists _, _.
  destruct (get_block_traces_twice Scenario.session_armed
              {| script := [Scenario.ready; Scenario.captured]; trace := [] |}
              _ _ _ [] Scenario.ready Scenario.ok [] [] eq_refl)
    as (b2 & self2 & w2 & Hrun & Hres);
    [constructor | vm_compute; congruence | reflexivity |].
  exists b2, self2, w2. split; [reflexivity |]. split; [exact Hrun |].
  split; [exact Hres |]. split; [reflexivity |].
  vm_compute in Hrun. injection Hrun as <- _ _. vm_compute. congruence.
Defined.

(** C6, where the code departs from it. [run_block] looks at the status of
    the last set-data-buffers call only, and [get_block_traces] at none of
    the statuses of its readiness polls: with channels A and B, the call for
    A failing with status 13 does not keep [run_block] from starting the
    capture and returning, and a poll that fails with status 13 while
    setting the flag does not keep [get_block_traces] from returning
    traces. *)
Theorem driver_status_not_checked :
  (let run := run_block Scenario.session_planned
                {| script := [Scenario.failed; Scenario.ok; Scenario.ok];
                   trace := [] |} in
   run.1.1 = Returned tt /\
   trace run.2 =
     [Driver (ps4000aSetDataBuffers 0 4) (Some Scenario.failed);
      Driver (ps4000aSetDataBuffers 1 4) (Some Scenario.ok);
      Driver (ps4000aRunBlock 0 4 3999) (Some Scenario.ok)]) /\
  (let run := get_block_traces Scenario.session_armed
                {| script := [Scenario.ready_failed; Scenario.captured];
                   trace := [] |} in
   (exists traces, run.1.1 = Returned traces) /\
   trace run.2 =
     [Driver ps4000aIsReady (Some Scenario.ready_failed);
      Driver (ps4000aGetValues 4) (Some Scenario.captured)]).
Proof.
  split.
  - vm_compute. split; reflexivity.
  - split; [eexists |]; vm_compute; reflexivity.
Qed.

(** Every status but the last of the set-data-buffers calls is dropped:
    whatever the driver answers for the earlier channels, [run_block] goes
    on to start the capture. *)
Lemma run_block_earlier_statuses_dropped self w rs r_last r_run rest n pre
    post tb :
  block_size self = Some n -> 0 <= n ->
  pre_trigger_samples self = Some pre ->
  post_trigger_samples self = Some post ->
  timebase self = Some tb ->
  (forall c, c ∈ active_channels self -> exists code, channel_code c = Ok code) ->
  script w = rs ++ r_last :: r_run :: rest ->
  S (length rs) = length (active_channels self) ->
  status r_last = 0 -> status r_run = 0 ->
  (run_block self w).1.1 = Returned tt /\
  last (trace (run_block self w).2)
  = Some (Driver (ps4000aRunBlock pre post tb) (Some r_run)).
Proof.
  intros. erewrite run_block_run by done. simpl.
  split; [done |]. by rewrite app_assoc, last_snoc.
Qed.

(** *** What the operations change in a session *)

Ltac frame := cbn; split_and!; auto; try congruence.

(** [setup_channel] leaves the session alone, or registers the channel with
    the index of the coerced range; the latter only for a name the
    enumeration knows. *)
Lemma setup_channel_state name offset range coupling self w :
  let run := setup_channel name offset range coupling self w in
  (run.1.1 <> Returned tt /\ run.1.2 = self) \/
  (exists idx code,
     coerce_channel_range range = Ok idx /\ channel_code name = Ok code /\
     run.1.1 = Returned tt /\ run.1.2 = register_channel name idx self).
Proof.
  unfold setup_channel. unfold_monad.
  destruct (coerce_channel_range range) as [idx|]; [|by left].
  destruct (channel_code name) as [code|] eqn:Hcode; [|by left].
  destruct (script w); [by left |].
  destruct (decide _); [|by left].
  right. by exists idx, code.
Qed.

Lemma setup_trigger_state src t dir delay auto self w :
  (setup_trigger src t dir delay auto self w).1.2 = self.
Proof.
  rewrite setup_trigger_run.
  destruct (convert_trigger_units self src t); [|done].
  destruct (channel_code src); [|done].
  by destruct (script w).
Qed.

Lemma setup_block_state n d f self w :
  let self' := (setup_block n d f self w).1.2 in
  max_ADC self' = max_ADC self /\ buffers self' = buffers self /\
  active_channels self' = active_channels self /\
  channel_ranges self' = channel_ranges self.
Proof.
  unfold setup_block. unfold_monad.
  destruct (convert_timebase n d); [|done].
  destruct (script w); [done |]. by destruct (decide _).
Qed.

(** The loop of [run_block] touches [self.buffers] only: it sets entries
    for names of the list it runs over. *)
Lemma set_data_buffers_state channels : forall status0 self w,
  let self' := (set_data_buffers channels status0 self w).1.2 in
  max_ADC self' = max_ADC self /\
  active_channels self' = active_channels self /\
  channel_ranges self' = channel_ranges self /\
  timebase self' = timebase self /\ block_size self' = block_size self /\
  pre_trigger_samples self' = pre_trigger_samples self /\
  post_trigger_samples self' = post_trigger_samples self /\
  (NoDup (PyDict.keys (buffers self)) ->
   NoDup (PyDict.keys (buffers self'))) /\
  (forall c, c ∈ PyDict.keys (buffers self') ->
     c ∈ PyDict.keys (buffers self) \/ c ∈ channels).
Proof.
  induction channels as [|c channels IH]; intros status0 self w.
  - cbn. split_and!; auto.
  - cbn [set_data_buffers]. unfold_monad.
    destruct (block_size self) as [n|] eqn:Hn;
      [|cbn; split_and!; auto].
    destruct (c_int16_array n) as [buffer|];
      [|cbn; split_and!; auto].
    cbv beta iota zeta. cbn [buffers].
    set (self1 := set_buffers (PyDict.set c buffer (buffers self)) self).
    assert (forall c', c' ∈ PyDict.keys (buffers self1) ->
              c' ∈ PyDict.keys (buffers self) \/ c' ∈ c :: channels) as Hk1.
    { intros c' [->|?]%PyDictFacts.elem_of_keys_set; [right | by left].
      apply list_elem_of_here. }
    destruct (channel_code c) as [code|].
    2:{ cbn. split_and!; auto.
        apply PyDictFacts.NoDup_keys_set. }
    destruct (script w) as [|r scr].
    { cbn. split_and!; auto. apply PyDictFacts.NoDup_keys_set. }
    specialize (IH (Some (status r)) self1
                  {| script := scr;
                     trace := trace w ++
                       [Driver (ps4000aSetDataBuffers code n) (Some r)] |}).
    destruct (set_data_buffers channels _ self1 _) as [[o self'] w'].
    cbn in IH. destruct IH as (? & ? & ? & ? & ? & ? & ? & Hnd & Hk).
    assert (forall c', c' ∈ PyDict.keys (buffers self') ->
              c' ∈ PyDict.keys (buffers self) \/ c' ∈ c :: channels) as Hk'.
    { intros c' [Hc'|Hc']%Hk; [by apply Hk1 |].
      right. by apply list_elem_of_further. }
    destruct o; cbn; split_and!; auto; try congruence;
      intros; by apply Hnd, PyDictFacts.NoDup_keys_set.
Qed.

Lemma run_block_state self w :
  let self' := (run_block self w).1.2 in
  max_ADC self' = max_ADC self /\
  active_channels self' = active_channels self /\
  channel_ranges self' = channel_ranges self /\
  timebase self' = timebase self /\ block_size self' = block_size self /\
  pre_trigger_samples self' = pre_trigger_samples self /\
  post_trigger_samples self' = post_trigger_samples self /\
  (NoDup (PyDict.keys (buffers self)) ->
   NoDup (PyDict.keys (buffers self'))) /\
  (forall c, c ∈ PyDict.keys (buffers self') ->
     c ∈ PyDict.keys (buffers self) \/ c ∈ active_channels self).
Proof.
  unfold run_block. unfold_monad. cbv beta iota zeta.
  pose proof (set_data_buffers_state (active_channels self) None self w)
    as Hloop.
  destruct (set_data_buffers _ _ self w) as [[o self'] w'].
  cbn in Hloop. destruct Hloop as (? & ? & ? & ? & ? & Hpre & Hpost & ? & ?).
  destruct o as [[st|]| |]; [| by frame .. ].
  destruct (decide (st = 0)); [|by frame]. cbv beta iota zeta.
  destruct (pre_trigger_samples self') as [pre|] eqn:?; [|by frame].
  destruct (post_trigger_samples self') as [post|] eqn:?; [|by frame].
  destruct (timebase self') as [tb|] eqn:?; [|by frame].
  destruct (script w'); [by frame |].
  by destruct (decide _); frame.
Qed.

Lemma driver_fill_keys r bufs :
  PyDict.keys (driver_fill r bufs) = PyDict.keys bufs.
Proof.
  unfold driver_fill, PyDict.keys. destruct (delivered r); try done.
  rewrite <-list_fmap_compose. apply list_fmap_ext.
  intros _ [chl [cells|v]] _; simpl; [|done].
  by destruct (PyDict.get chl samples).
Qed.

(** [get_block_traces] replaces the values of [self.buffers] and keeps its
    keys; the channel bookkeeping and the block plan stay as they are. *)
Lemma get_block_traces_state self w :
  let self' := (get_block_traces self w).1.2 in
  max_ADC self' = max_ADC self /\
  active_channels self' = active_channels self /\
  channel_ranges self' = channel_ranges self /\
  timebase self' = timebase self /\ block_size self' = block_size self /\
  pre_trigger_samples self' = pre_trigger_samples self /\
  post_trigger_samples self' = post_trigger_samples self /\
  PyDict.keys (buffers self') = PyDict.keys (buffers self).
Proof.
  unfold get_block_traces, wait_until_ready, convert_ADC_units.
  unfold_monad. cbv beta iota delta [id].
  destruct (is_ready_loop 0 (script w) (trace w)) as [[[]| |] w'];
    [| by frame ..].
  destruct (block_size self) as [n|] eqn:Hn; [|by frame].
  destruct (script w') as [|r scr']; [by frame |].
  cbn [buffers set_buffers].
  destruct (decide (status r = 0));
    [| frame; apply driver_fill_keys].
  cbv beta iota zeta. cbn [buffers set_buffers].
  destruct (PyDict.map_items _ _) as [conv|] eqn:Hconv;
    [| frame; apply driver_fill_keys].
  apply PyDictFacts.map_items_keys in Hconv.
  rewrite driver_fill_keys in Hconv. unfold PyDict.keys in *. by frame.
Qed.

Lemma coerce_channel_range_in_table range idx :
  coerce_channel_range range = Ok idx -> is_Some (allowed_ranges !! idx).
Proof.
  intros Hco.
  destruct (coerce_channel_range_choice range) as (i & R & Hi & Hl & _).
  rewrite Hco in Hi. injection Hi as <-. by exists R.
Qed.

(** The channel bookkeeping of every session a program can reach. *)
Lemma reachable_well_keyed self : reachable self -> well_keyed self.
Proof.
  induction 1 as [max_adc
                 | self name offset range coupling w _ IH
                 | self src t dir delay auto w _ IH
                 | self n d f w _ IH
                 | self w _ IH
                 | self w _ IH].
  - unfold well_keyed. cbn. split_and!; try apply NoDup_nil_2; done.
  - destruct (setup_channel_state name offset range coupling self w)
      as [[_ ->]|(idx & code & Hco & Hcode & _ & ->)]; [done |].
    destruct IH as (Hnd & Hndb & Hact & Hbuf & Hval).
    unfold well_keyed.
    cbn [register_channel channel_ranges active_channels buffers].
    split_and!.
    + by apply PyDictFacts.NoDup_keys_set.
    + done.
    + intros c. rewrite elem_of_app, list_elem_of_singleton,
        PyDictFacts.elem_of_keys_set, Hact. tauto.
    + intros c Hc. apply elem_of_app. left. by apply Hbuf.
    + intros c idx' Hget. destruct (decide (name = c)) as [->|Hne].
      * rewrite PyDictFacts.get_set_eq in Hget. injection Hget as <-.
        split; [by eapply coerce_channel_range_in_table | by exists code].
      * rewrite PyDictFacts.get_set_ne in Hget by done. by apply Hval.
  - by rewrite setup_trigger_state.
  - destruct (setup_block_state n d f self w) as (HM & Hb & Ha & Hr).
    destruct IH as (Hnd & Hndb & Hact & Hbuf & Hval).
    unfold well_keyed. rewrite Hb, Ha, Hr. by split_and!.
  - destruct (run_block_state self w)
      as (HM & Ha & Hr & _ & _ & _ & _ & Hndb' & Hk).
    destruct IH as (Hnd & Hndb & Hact & Hbuf & Hval).
    unfold well_keyed. rewrite Ha, Hr. split_and!; auto.
    intros c [Hc|Hc]%Hk; [by apply Hbuf | done].
  - destruct (get_block_traces_state self w)
      as (HM & Ha & Hr & _ & _ & _ & _ & Hk).
    destruct IH as (Hnd & Hndb & Hact & Hbuf & Hval).
    unfold well_keyed. rewrite Ha, Hr, Hk. by split_and!.
Qed.

Lemma fresh_buffers_keys n channels : forall bufs,
  (NoDup (PyDict.keys bufs) ->
   NoDup (PyDict.keys (fresh_buffers n channels bufs))) /\
  (forall c, c ∈ PyDict.keys (fresh_buffers n channels bufs) <->
             c ∈ PyDict.keys bufs \/ c ∈ channels).
Proof.
  unfold fresh_buffers.
  induction channels as [|c0 channels IH]; intros bufs; simpl.
  - split; [done |]. intros c. rewrite elem_of_nil. tauto.
  - destruct (IH (PyDict.set c0 (CArray (replicate (Z.to_nat n) 0)) bufs))
      as [Hnd Hk].
    split.
    + intros ?. by apply Hnd, PyDictFacts.NoDup_keys_set.
    + intros c. rewrite Hk, PyDictFacts.elem_of_keys_set, elem_of_cons.
      tauto.
Qed.

(** [Scenario.session_AA] is what two successful [setup_channel('A')] and a
    [setup_block(4, 3e-5, 0)] leave behind. *)
Lemma session_AA_reachable : reachable Scenario.session_AA.
Proof.
  pose (w := {| script := [Scenario.ok]; trace := [] |}).
  pose (s1 := (setup_channel "A" 0 2000 true (new_session 32767) w).1.2).
  pose (s2 := (setup_channel "A" 0 2000 true s1 w).1.2).
  change Scenario.session_AA
    with ((setup_block 4 (3 # 100000) 0 s2 w).1.2).
  repeat constructor.
Qed.

(** C7, amended. In every session a program can reach, [channel_ranges] and
    [buffers] hold a channel name once and the names of [channel_ranges] are
    those of [active_channels].  [active_channels] is a list: a
    [setup_channel] for a name of the enumeration that the driver accepts
    returns and has appended the name, also when the name is there already,
    while [channel_ranges] gets a new key only for a new name.  [run_block],
    when the driver answers and accepts, issues one set-data-buffers call per
    entry of that list, in its order, and leaves [buffers] with one buffer
    for each name of the list. *)
Theorem channels_keyed_by_name self :
  reachable self ->
  NoDup (PyDict.keys (channel_ranges self)) /\
  NoDup (PyDict.keys (buffers self)) /\
  (forall c, c ∈ active_channels self <-> c ∈ PyDict.keys (channel_ranges self)) /\
  (forall name code offset range coupling r rest tr,
     channel_code name = Ok code -> status r = 0 ->
     let run := setup_channel name offset range coupling self
                  {| script := r :: rest; trace := tr |} in
     run.1.1 = Returned tt /\
     active_channels run.1.2 = active_channels self ++ [name] /\
     PyDict.keys (channel_ranges run.1.2) =
       if decide (name ∈ active_channels self)
       then PyDict.keys (channel_ranges self)
       else PyDict.keys (channel_ranges self) ++ [name]) /\
  (forall w rs r_last r_run rest n pre post tb,
     block_size self = Some n -> 0 <= n ->
     pre_trigger_samples self = Some pre ->
     post_trigger_samples self = Some post ->
     timebase self = Some tb ->
     script w = rs ++ r_last :: r_run :: rest ->
     S (length rs) = length (active_channels self) ->
     status r_last = 0 -> status r_run = 0 ->
     let run := run_block self w in
     run.1.1 = Returned tt /\
     trace run.2 =
       trace w ++
       zip_with (fun c r =>
                   Driver (ps4000aSetDataBuffers (code_of c) n) (Some r))
         (active_channels self) (rs ++ [r_last]) ++
       [Driver (ps4000aRunBlock pre post tb) (Some r_run)] /\
     NoDup (PyDict.keys (buffers run.1.2)) /\
     (forall c, c ∈ PyDict.keys (buffers run.1.2) <-> c ∈ active_channels self)).
Proof.
  intros Hreach.
  destruct (reachable_well_keyed _ Hreach) as (Hnd & Hndb & Hact & Hbuf & Hval).
  split_and!; [done | done | done | |].
  - intros name code offset range coupling r rest tr Hcode Hok run.
    subst run. rewrite setup_channel_run, Hcode.
    destruct (coerce_channel_range_choice range) as (i & R & -> & _).
    cbn [script trace]. cbv zeta. rewrite decide_True by done.
    cbn [fst snd register_channel active_channels channel_ranges].
    split_and!; [done | done |].
    rewrite PyDictFacts.keys_set.
    destruct (decide (name ∈ active_channels self)) as [Hin|Hnin].
    + rewrite decide_True; [done | by apply Hact].
    + rewrite decide_False; [done |]. intros ?. by apply Hnin, Hact.
  - intros w rs r_last r_run rest n pre post tb Hn Hn0 Hpre Hpost Htb Hscr
      Hlen Hlast Hrun run. subst run.
    erewrite run_block_run; [| done | done | done | done | done | | done
                             | done | done | done].
    + cbn [fst snd trace buffers set_buffers].
      destruct (fresh_buffers_keys n (active_channels self) (buffers self))
        as [Hnd' Hk].
      split_and!; [done | done | by apply Hnd' |].
      intros c. rewrite Hk. split; [intros [?|?]; auto | by right].
    + intros c Hc. apply Hact, PyDictFacts.elem_of_keys_get in Hc as [idx Hc].
      by destruct (Hval c idx Hc).
Qed.

Lemma channels_keyed_by_name_witness :
  NoDup (PyDict.keys (channel_ranges Scenario.session_AA)) /\
  (let run := run_block Scenario.session_AA
                {| script := [Scenario.ok] ++ Scenario.ok :: Scenario.ok :: [];
                   trace := [] |} in
   trace run.2 =
     [Driver (ps4000aSetDataBuffers 0 4) (Some Scenario.ok);
      Driver (ps4000aSetDataBuffers 0 4) (Some Scenario.ok);
      Driver (ps4000aRunBlock 0 4 3999) (Some Scenario.ok)] /\
   PyDict.keys (buffers run.1.2) = ["A"]%string) /\
  (let run := setup_channel "A" 0 2000 true Scenario.session_AA
                {| script := [Scenario.ok]; trace := [] |} in
   run.1.1 = Returned tt /\
   active_channels run.1.2 = ["A"; "A"; "A"]%string /\
   PyDict.keys (channel_ranges run.1.2) = ["A"]%string).
Proof.
  destruct (channels_keyed_by_name Scenario.session_AA session_AA_reachable)
    as (Hnd & _ & _ & Hset & Hrun).
  split; [exact Hnd |].
  destruct (Hrun {| script := [Scenario.ok] ++ Scenario.ok :: Scenario.ok :: [];
                    trace := [] |}
              [Scenario.ok] Scenario.ok Scenario.ok [] 4 0 4 3999)
    as (_ & Htr & _); [reflexivity | lia | reflexivity .. |].
  split; [split; [exact Htr | reflexivity] |].
  exact (Hset "A"%string 0 0%Q 2000%Q true Scenario.ok [] [] eq_refl eq_refl).
Defined.

(** C7 as stated fails. After [setup_channel('A')] has succeeded twice the
    name A is in [active_channels] twice, and [run_block] issues two
    set-data-buffers calls for it. *)
Lemma active_channels_duplicate_counterexample :
  reachable Scenario.session_AA /\
  active_channels Scenario.session_AA = ["A"; "A"]%string /\
  trace (run_block Scenario.session_AA
           {| script := [Scenario.ok; Scenario.ok; Scenario.ok];
              trace := [] |}).2 =
    [Driver (ps4000aSetDataBuffers 0 4) (Some Scenario.ok);
     Driver (ps4000aSetDataBuffers 0 4) (Some Scenario.ok);
     Driver (ps4000aRunBlock 0 4 3999) (Some Scenario.ok)] /\
  ~ (forall self, reachable self -> NoDup (active_channels self)).
Proof.
  split_and!; [apply session_AA_reachable | reflexivity | reflexivity |].
  intros Hclaim. specialize (Hclaim _ session_AA_reachable).
  change (active_channels Scenario.session_AA) with ["A"; "A"]%string in Hclaim.
  apply NoDup_cons in Hclaim as [Hnin _]. apply Hnin, list_elem_of_here.
Qed.

(** *** The trace of [get_block_traces] *)

(** The polling loop adds calls of the driver to the trace and nothing
    else. *)
Lemma is_ready_loop_trace scr : forall ready tr,
  exists tl,
    trace (is_ready_loop ready scr tr).2 = tr ++ tl /\
    Forall (fun e => is_sleep e = false) tl.
Proof.
  induction scr as [|r scr IH]; intros ready tr; cbn [is_ready_loop].
  - destruct (decide (ready = 0)); cbn [snd trace].
    + eexists. split; [done |]. by repeat constructor.
    + exists []. by rewrite app_nil_r.
  - destruct (decide (ready = 0)); cbn [snd trace].
    + destruct (IH (ready_after r ready)
                  (tr ++ [Driver ps4000aIsReady (Some r)]))
        as (tl & -> & Hns).
      exists (Driver ps4000aIsReady (Some r) :: tl).
      rewrite <-app_assoc. split; [done | by constructor].
    + exists []. by rewrite app_nil_r.
Qed.

(** What [get_block_traces] adds to the trace of its polling loop: at most
    the request for the values. *)
Lemma get_block_traces_after_loop self w :
  exists tl,
    trace (get_block_traces self w).2
    = trace (is_ready_loop 0 (script w) (trace w)).2 ++ tl /\
    Forall (fun e => is_sleep e = false) tl.
Proof.
  unfold get_block_traces, wait_until_ready, convert_ADC_units.
  unfold_monad. cbv beta iota delta [id].
  destruct (is_ready_loop 0 (script w) (trace w)) as [[[]| |] w'];
    cbn [snd]; try (exists []; by rewrite app_nil_r).
  destruct (block_size self) as [n|]; cbn [snd];
    [| exists []; by rewrite app_nil_r].
  destruct (script w') as [|r scr']; cbn [snd trace].
  { eexists. split; [done |]. by repeat constructor. }
  exists [Driver (ps4000aGetValues n) (Some r)].
  split; [| by repeat constructor].
  cbn [buffers set_buffers].
  destruct (decide (status r = 0)); [|done].
  cbv beta iota zeta. by destruct (PyDict.map_items _ _).
Qed.

(** A first poll that finds the block not ready: the next thing the
    operation does is to poll again. *)
Lemma get_block_traces_busy_poll self r1 r2 rest tr :
  ready_after r1 0 = 0 ->
  exists tl,
    trace (get_block_traces self {| script := r1 :: r2 :: rest; trace := tr |}).2
    = tr ++ Driver ps4000aIsReady (Some r1)
         :: Driver ps4000aIsReady (Some r2) :: tl.
Proof.
  intros Hr1.
  destruct (get_block_traces_after_loop self
              {| script := r1 :: r2 :: rest; trace := tr |}) as (tl & -> & _).
  cbn [script trace is_ready_loop]. rewrite decide_True, Hr1 by done.
  rewrite decide_True by done.
  match goal with
  | |- context [is_ready_loop ?b rest ?t] =>
      destruct (is_ready_loop_trace rest b t) as (tl' & -> & _)
  end.
  exists (tl' ++ tl). by rewrite <-!app_assoc.
Qed.

(** *** Further properties of [coerce_channel_range] *)

(** The coercion does not see the sign of the request, sends a range of the
    table to its own index, and is monotone: a request that is larger in
    magnitude resolves to a range that is at least as large. *)
Theorem coerce_channel_range_laws :
  (forall r, coerce_channel_range (- r) = coerce_channel_range r) /\
  (forall i R,
     allowed_ranges !! i = Some R ->
     coerce_channel_range (inject_Z R) = Ok i /\
     coerce_channel_range (inject_Z (- R)) = Ok i) /\
  (forall r1 r2,
     (Qabs r1 <= Qabs r2)%Q ->
     exists i1 i2 R1 R2,
       coerce_channel_range r1 = Ok i1 /\ coerce_channel_range r2 = Ok i2 /\
       allowed_ranges !! i1 = Some R1 /\ allowed_ranges !! i2 = Some R2 /\
       R1 <= R2).
Proof.
  split_and!.
  - intros [a b]. unfold coerce_channel_range, Qabs, Qopp. cbn [Qnum Qden].
    by rewrite Z.abs_opp.
  - intros i R Hl.
    do 12 (destruct i as [|i]; [injection Hl as <-; by vm_compute |]).
    done.
  - intros r1 r2 Hle.
    destruct (coerce_channel_range_choice r1) as (i1 & R1 & Hc1 & Hl1 & Hleast1 & _).
    destruct (coerce_channel_range_choice r2) as (i2 & R2 & Hc2 & Hl2 & Hleast2 & Hmax2).
    exists i1, i2, R1, R2. split_and!; [done .. |].
    assert (R1 ∈ allowed_ranges) as HR1 by (by eapply list_elem_of_lookup_2).
    assert (R2 ∈ allowed_ranges) as HR2 by (by eapply list_elem_of_lookup_2).
    destruct (Qlt_le_dec 50000 (Qabs r2)) as [Hbig|Hfits].
    + rewrite Hmax2.
      * revert HR1. unfold allowed_ranges. rewrite !elem_of_cons, elem_of_nil.
        lia.
      * intros y Hy. eapply Qle_lt_trans; [|exact Hbig].
        revert Hy. unfold allowed_ranges. rewrite !elem_of_cons, elem_of_nil.
        intros Hy. change (inject_Z y <= inject_Z 50000)%Q.
        rewrite <-Zle_Qle. lia.
    + destruct (Hleast2 50000) as [Hr2 _]; [| exact Hfits |].
      { unfold allowed_ranges. rewrite !elem_of_cons. tauto. }
      destruct (Hleast1 R2 HR2) as [_ ?]; [|done].
      by eapply Qle_trans.
Qed.

(** *** [run_block] on a session that is not prepared *)

(** Without an active channel the loop does not run, [status] is unbound
    and the check behind the loop raises [UnboundLocalError]; with a channel
    but without a block plan the first turn of the loop raises
    [AttributeError].  In both cases the driver has not been called and the
    session is as it was. *)
Theorem run_block_unprepared self w :
  (active_channels self = [] ->
   run_block self w = (Raised UnboundLocalError, self, w)) /\
  (active_channels self <> [] -> block_size self = None ->
   run_block self w = (Raised AttributeError, self, w)).
Proof.
  split.
  - intros Hnil. unfold run_block. unfold_monad. rewrite Hnil. cbn.
    done.
  - intros Hne Hn. unfold run_block. unfold_monad.
    destruct (active_channels self) as [|c cs]; [done |].
    cbn [set_data_buffers]. unfold_monad. by rewrite Hn.
Qed.

Lemma run_block_unprepared_witness :
  run_block (new_session 32767) (Scenario.quiet [])
  = (Raised UnboundLocalError, new_session 32767, Scenario.quiet []) /\
  run_block Scenario.session_AB (Scenario.quiet [])
  = (Raised AttributeError, Scenario.session_AB, Scenario.quiet []).
Proof.
  split.
  - apply (run_block_unprepared (new_session 32767) (Scenario.quiet [])).
    reflexivity.
  - apply (run_block_unprepared Scenario.session_AB (Scenario.quiet []));
      [discriminate | reflexivity].
Defined.

(** *** The status [run_block] looks at *)

(** When the last set-data-buffers call fails, [run_block] raises its
    status: the capture is not started, and the buffers of the session have
    been replaced all the same. *)
Theorem run_block_last_status_raised self w rs r_last rest n :
  block_size self = Some n -> 0 <= n ->
  (forall c, c ∈ active_channels self -> exists code, channel_code c = Ok code) ->
  script w = rs ++ r_last :: rest ->
  S (length rs) = length (active_channels self) ->
  status r_last <> 0 ->
  run_block self w =
  (Raised (PicoSDKCtypesError (status r_last)),
   set_buffers (fresh_buffers n (active_channels self) (buffers self)) self,
   {| script := rest;
      trace := trace w ++
        zip_with (fun c r =>
                    Driver (ps4000aSetDataBuffers (code_of c) n) (Some r))
          (active_channels self) (rs ++ [r_last]) |}).
Proof.
  intros Hn Hn0 Hcodes Hscr Hlen Hlast.
  unfold run_block. unfold bind at 1. unfold gets at 1. unfold bind at 1.
  rewrite (set_data_buffers_run _ _ _ _ (rs ++ [r_last]) rest n);
    [| done | done | done | by rewrite <-app_assoc
     | rewrite length_app; simpl; lia].
  unfold status_after. rewrite fold_left_app. simpl.
  unfold_monad. by rewrite decide_False.
Qed.

Lemma run_block_last_status_raised_witness :
  run_block Scenario.session_planned
    {| script := [Scenario.ok] ++ Scenario.failed :: [Scenario.ok];
       trace := [] |}
  = (Raised (PicoSDKCtypesError 13),
     set_buffers
       (fresh_buffers 4 ["A"; "B"]%string (buffers Scenario.session_planned))
       Scenario.session_planned,
     {| script := [Scenario.ok];
        trace := [] ++
          [Driver (ps4000aSetDataBuffers 0 4) (Some Scenario.ok);
           Driver (ps4000aSetDataBuffers 1 4) (Some Scenario.failed)] |}).
Proof.
  apply (run_block_last_status_raised Scenario.session_planned
           {| script := [Scenario.ok] ++ Scenario.failed :: [Scenario.ok];
              trace := [] |} [Scenario.ok] Scenario.failed [Scenario.ok] 4);
    [reflexivity | lia | | reflexivity | reflexivity | discriminate].
  intros c Hc. change (c ∈ ["A"; "B"]%string) in Hc.
  apply elem_of_cons in Hc as [->|Hc]; [by exists 0 |].
  apply elem_of_cons in Hc as [->|Hc]; [by exists 1 |].
  by apply elem_of_nil in Hc.
Defined.

(** *** The buffers [run_block] leaves *)

Lemma fresh_buffers_get n channels : forall bufs c,
  c ∈ channels \/ PyDict.get c bufs = Some (CArray (replicate (Z.to_nat n) 0)) ->
  PyDict.get c (fresh_buffers n channels bufs)
  = Some (CArray (replicate (Z.to_nat n) 0)).
Proof.
  unfold fresh_buffers.
  induction channels as [|c0 channels IH]; intros bufs c; simpl.
  - intros [?%elem_of_nil|?]; done.
  - intros Hc. apply IH. destruct (decide (c0 = c)) as [->|Hne].
    + right. apply PyDictFacts.get_set_eq.
    + rewrite PyDictFacts.get_set_ne by done.
      destruct Hc as [[?|?]%elem_of_cons|?]; [congruence | by left | by right].
Qed.

(** After a [run_block] that the driver accepted, every active channel has a
    zeroed array of [block_size] cells, whatever [self.buffers] held before:
    the lists of an earlier [get_block_traces] are gone. *)
Theorem run_block_fresh_buffers self w rs r_last r_run rest n pre post tb :
  block_size self = Some n -> 0 <= n ->
  pre_trigger_samples self = Some pre ->
  post_trigger_samples self = Some post ->
  timebase self = Some tb ->
  (forall c, c ∈ active_channels self -> exists code, channel_code c = Ok code) ->
  script w = rs ++ r_last :: r_run :: rest ->
  S (length rs) = length (active_channels self) ->
  status r_last = 0 -> status r_run = 0 ->
  let run := run_block self w in
  run.1.1 = Returned tt /\
  (forall c, c ∈ active_channels self ->
     PyDict.get c (buffers run.1.2)
     = Some (CArray (replicate (Z.to_nat n) 0))) /\
  (forall c, c ∈ PyDict.keys (buffers run.1.2) <->
     c ∈ PyDict.keys (buffers self) \/ c ∈ active_channels self).
Proof.
  intros Hn Hn0 Hpre Hpost Htb Hcodes Hscr Hlen Hlast Hrun run. subst run.
  erewrite run_block_run by done. cbn [fst snd buffers set_buffers].
  split_and!; [done | |].
  - intros c Hc. apply fresh_buffers_get. by left.
  - apply fresh_buffers_keys.
Qed.

(** A second [run_block] on the session that the first capture of channels
    A and B left with converted lists. *)
Lemma run_block_fresh_buffers_witness :
  let converted :=
    (get_block_traces Scenario.session_armed
       {| script := [Scenario.ready; Scenario.captured]; trace := [] |}).1.2 in
  let run := run_block converted
               {| script := [Scenario.ok] ++ Scenario.ok :: Scenario.ok :: [];
                  trace := [] |} in
  PyDict.get "A" (buffers converted)
  = Some (FloatList [200000 # 32767; 400000 # 32767; -600000 # 32767;
                     65534000 # 32767]) /\
  run.1.1 = Returned tt /\
  PyDict.get "A" (buffers run.1.2) = Some (CArray [0; 0; 0; 0]).
Proof.
  intros converted run. split; [reflexivity |].
  destruct (run_block_fresh_buffers converted
              {| script := [Scenario.ok] ++ Scenario.ok :: Scenario.ok :: [];
                 trace := [] |}
              [Scenario.ok] Scenario.ok Scenario.ok [] 4 0 4 3999)
    as (Hret & Hget & _);
    [reflexivity | lia | reflexivity | reflexivity | reflexivity | |
     reflexivity | reflexivity | reflexivity | reflexivity |].
  - intros c Hc. change (c ∈ ["A"; "B"]%string) in Hc.
    apply elem_of_cons in Hc as [->|Hc]; [by exists 0 |].
    apply elem_of_cons in Hc as [->|Hc]; [by exists 1 |].
    by apply elem_of_nil in Hc.
  - split; [exact Hret |].
    apply (Hget "A"%string). change ("A"%string ∈ ["A"; "B"]%string).
    apply list_elem_of_here.
Defined.

(** *** The plan [setup_block] stores *)



(** *** [setup_trigger] on a session a program can reach *)

(** On a reachable session every configured channel has a range of the
    table and a name of the enumeration, so the lookups of [setup_trigger]
    cannot fail in any other way than the two configuration errors: the
    operation returns, exits, raises the status of its one driver call, or
    waits for that call.  It never changes the session, and it calls the
    driver only after the threshold has passed the check. *)
Theorem setup_trigger_outcomes self src (t : Q) dir delay auto w :
  reachable self ->
  let run := setup_trigger src t dir delay auto self w in
  run.1.2 = self /\
  (run.1.1 = Raised SystemExit /\ run.2 = w \/
   exists idx R code,
     PyDict.get src (channel_ranges self) = Some idx /\
     allowed_ranges !! idx = Some R /\ (t < inject_Z R)%Q /\
     channel_code src = Ok code /\
     let c := ps4000aSetSimpleTrigger 1 code
                (py_round (t / inject_Z R * inject_Z (max_ADC self)))
                dir delay auto in
     match script w with
     | [] => run.1.1 = Waiting /\ trace run.2 = trace w ++ [Driver c None]
     | r :: rest =>
         run.1.1 = (if decide (status r = 0) then Returned tt
                    else Raised (PicoSDKCtypesError (status r))) /\
         run.2 = {| script := rest; trace := trace w ++ [Driver c (Some r)] |}
     end).
Proof.
  intros Hreach run. subst run.
  destruct (reachable_well_keyed _ Hreach) as (_ & _ & _ & _ & Hval).
  split; [apply setup_trigger_state |].
  rewrite setup_trigger_run.
  destruct (PyDict.get src (channel_ranges self)) as [idx|] eqn:Hget.
  2:{ left. unfold convert_trigger_units. by rewrite Hget. }
  destruct (Hval src idx Hget) as [[R Hl] [code Hcode]].
  rewrite (convert_trigger_units_configured _ _ _ _ _ Hget Hl), Hcode.
  destruct (Qle_bool (inject_Z R) t) eqn:Hle; [by left |].
  right. exists idx, R, code. split_and!; [done | done | | done |].
  - apply Qnot_le_lt. intros Hle'. apply Qle_bool_iff in Hle'. congruence.
  - cbv zeta. destruct (script w) as [|r rest]; cbn [fst snd]; [done |].
    by destruct (decide _).
Qed.

Lemma setup_trigger_outcomes_witness :
  let run := setup_trigger "A" 1500 2 0 0 Scenario.session_AA
               {| script := [Scenario.ok]; trace := [] |} in
  run.1.2 = Scenario.session_AA /\
  run.1.1 = Returned tt /\
  trace run.2
  = [Driver (ps4000aSetSimpleTrigger 1 0 24575 2 0 0) (Some Scenario.ok)].
Proof.
  destruct (setup_trigger_outcomes Scenario.session_AA "A" 1500 2 0 0
              {| script := [Scenario.ok]; trace := [] |}
              session_AA_reachable) as [Hself _].
  split; [exact Hself |]. split; reflexivity.
Defined.

(** *** [get_block_traces]: waiting, failing, and what the polls count for *)

(** The polling loop has no bound: however many times the driver has
    answered that the block is not ready, [get_block_traces] has polled once
    more and waits for that answer, with the session untouched. *)
Theorem get_block_traces_keeps_polling self polls tr :
  Forall (fun p => ready_after p 0 = 0) polls ->
  get_block_traces self {| script := polls; trace := tr |} =
  (Waiting, self,
   {| script := [];
      trace := tr ++ ((fun p => Driver ps4000aIsReady (Some p)) <$> polls)
                  ++ [Driver ps4000aIsReady None] |}).
Proof.
  intros Hpolls. unfold get_block_traces, wait_until_ready, bind at 1.
  cbn [script trace]. by rewrite (is_ready_loop_waiting _ _ Hpolls).
Qed.

Lemma get_block_traces_keeps_polling_witness :
  get_block_traces Scenario.session_armed
    {| script := [Scenario.not_ready; Scenario.not_ready; Scenario.not_ready];
       trace := [] |} =
  (Waiting, Scenario.session_armed,
   {| script := [];
      trace := [] ++ ((fun p => Driver ps4000aIsReady (Some p))
                        <$> [Scenario.not_ready; Scenario.not_ready;
                             Scenario.not_ready])
                  ++ [Driver ps4000aIsReady None] |}).
Proof.
  apply (get_block_traces_keeps_polling Scenario.session_armed
           [Scenario.not_ready; Scenario.not_ready; Scenario.not_ready] []).
  repeat constructor.
Defined.

(** When the driver refuses to hand over the values, [get_block_traces]
    raises its status: the buffers stay the arrays [run_block] registered,
    with whatever the driver wrote into them, and are not converted. *)
Theorem get_block_traces_values_refused self w polls r_ready r_values rest n :
  block_size self = Some n ->
  script w = polls ++ r_ready :: r_values :: rest ->
  Forall (fun p => ready_after p 0 = 0) polls ->
  ready_after r_ready 0 <> 0 ->
  status r_values <> 0 ->
  let run := get_block_traces self w in
  run.1.1 = Raised (PicoSDKCtypesError (status r_values)) /\
  run.1.2 = set_buffers (driver_fill r_values (buffers self)) self /\
  voltage_unit run.1.2 = voltage_unit self /\
  script run.2 = rest /\
  last (trace run.2) = Some (Driver (ps4000aGetValues n) (Some r_values)).
Proof.
  intros Hn Hscr Hpolls Hready Hst run. subst run.
  rewrite (get_block_traces_run self w polls r_ready r_values rest n)
    by done.
  cbv zeta. rewrite decide_False by done. cbn [fst snd script trace].
  split_and!; [done | done | done | done |]. by rewrite last_snoc.
Qed.

Lemma get_block_traces_values_refused_witness :
  let run := get_block_traces Scenario.session_armed
               {| script := [Scenario.not_ready] ++ Scenario.ready
                              :: Scenario.failed :: [];
                  trace := [] |} in
  run.1.1 = Raised (PicoSDKCtypesError 13) /\
  PyDict.get "A" (buffers run.1.2) = Some (CArray [0; 0; 0; 0]) /\
  voltage_unit run.1.2 = None.
Proof.
  destruct (get_block_traces_values_refused Scenario.session_armed
              {| script := [Scenario.not_ready] ++ Scenario.ready
                             :: Scenario.failed :: [];
                 trace := [] |}
              [Scenario.not_ready] Scenario.ready Scenario.failed [] 4)
    as (Ho & Hs & Hu & _);
    [reflexivity | reflexivity | repeat constructor | discriminate
    | discriminate |].
  split; [exact Ho |]. split; [by rewrite Hs | by rewrite Hu].
Defined.

(** Neither the number of polls nor their statuses count: outcome and
    session of [get_block_traces] are those of a run whose first poll
    succeeded. *)
Theorem get_block_traces_polls_do_not_count self polls r_ready r_values rest
    tr :
  Forall (fun p => ready_after p 0 = 0) polls ->
  ready_after r_ready 0 <> 0 ->
  (get_block_traces self
     {| script := polls ++ r_ready :: r_values :: rest; trace := tr |}).1 =
  (get_block_traces self
     {| script := {| status := 0; delivered := ReadyFlag 1 |}
                    :: r_values :: rest;
        trace := [] |}).1.
Proof.
  intros Hpolls Hready. unfold get_block_traces.
  match goal with
  | |- (bind wait_until_ready ?k _ _).1 = _ => set (K := k)
  end.
  unfold bind, wait_until_ready. cbn [script trace].
  rewrite (is_ready_loop_run _ _ _ _ Hpolls Hready).
  change (?r :: r_values :: rest) with ([] ++ r :: r_values :: rest).
  rewrite (is_ready_loop_run [] _ _ _ (Forall_nil_2 _)) by done.
  subst K. unfold convert_ADC_units. unfold_monad. cbv beta iota delta [id].
  destruct (block_size self) as [n|]; [|done]. cbn [script trace].
  cbn [buffers set_buffers].
  destruct (decide (status r_values = 0)); [|done].
  cbv beta iota zeta. by destruct (PyDict.map_items _ _).
Qed.

Lemma get_block_traces_polls_do_not_count_witness :
  (get_block_traces Scenario.session_armed
     {| script := [Scenario.not_ready; Scenario.not_ready]
                    ++ Scenario.ready_failed :: Scenario.captured :: [];
        trace := [] |}).1 =
  (get_block_traces Scenario.session_armed
     {| script := {| status := 0; delivered := ReadyFlag 1 |}
                    :: Scenario.captured :: [];
        trace := [] |}).1.
Proof.
  apply (get_block_traces_polls_do_not_count Scenario.session_armed
           [Scenario.not_ready; Scenario.not_ready] Scenario.ready_failed
           Scenario.captured [] []);
    [repeat constructor | discriminate].
Defined.

(** *** A capture: [run_block], then [get_block_traces] *)

Lemma driver_fill_get r samples bufs c :
  delivered r = BlockData samples ->
  PyDict.get c (driver_fill r bufs) =
  (fun b =>
     match b, PyDict.get c samples with
     | CArray cells, Some data => CArray (write_cells data cells)
     | _, _ => b
     end) <$> PyDict.get c bufs.
Proof.
  intros Hr. unfold driver_fill. rewrite Hr.
  induction bufs as [|[k b] bufs IH]; [done |].
  rewrite fmap_cons.
  assert (forall b', PyDict.get c ((k, b') :: bufs)
                     = if decide (k = c) then Some b' else PyDict.get c bufs)
    as Hcons by done.
  rewrite Hcons.
  destruct b as [cells|v]; [destruct (PyDict.get k samples) eqn:Hk |];
    cbn [PyDict.get]; (destruct (decide (k = c)) as [->|]; [|done]);
    cbn [fmap option_fmap option_map]; by rewrite ?Hk.
Qed.

Lemma map_items_get {V W} (f : string -> V -> result W) (d : dict V) d' c v :
  PyDict.map_items f d = Ok d' -> PyDict.get c d = Some v ->
  exists v', f c v = Ok v' /\ PyDict.get c d' = Some v'.
Proof.
  revert d'. induction d as [|[k x] d IH]; intros d'; [done |].
  cbn [PyDict.map_items PyDict.get].
  destruct (f k x) as [y|] eqn:Hy; [|done]. cbn [result_bind].
  destruct (PyDict.map_items f d) as [d''|]; [|done]. cbn [result_bind].
  intros [= <-]. cbn [PyDict.get].
  destruct (decide (k = c)) as [->|Hne].
  - intros [= <-]. by exists y.
  - by apply IH.
Qed.

Lemma map_items_total {V W} (f : string -> V -> result W) (d : dict V) :
  Forall (fun e => exists w, f e.1 e.2 = Ok w) d ->
  exists d', PyDict.map_items f d = Ok d'.
Proof.
  induction 1 as [|[k x] d [y Hy] _ [d' IH]]; [by exists [] |].
  cbn [PyDict.map_items]. cbn [fst snd] in Hy. rewrite Hy, IH.
  by eexists.
Qed.

Lemma elem_of_dict_NoDup {V} (d : dict V) k v :
  NoDup (PyDict.keys d) -> (k, v) ∈ d -> PyDict.get k d = Some v.
Proof.
  unfold PyDict.keys. induction d as [|[k' v'] d IH]; [by intros _ ?%elem_of_nil |].
  rewrite fmap_cons. cbn [fst]. intros [Hnin Hnd]%NoDup_cons.
  intros [[= -> ->]|Hin]%elem_of_cons; cbn [PyDict.get].
  - by rewrite decide_True.
  - rewrite decide_False; [by apply IH |].
    intros ->. apply Hnin, list_elem_of_fmap. by exists (k, v).
Qed.

(** The conversion of an array of counts. *)
Lemma convert_entry_array self c cells idx R :
  PyDict.get c (channel_ranges self) = Some idx ->
  allowed_ranges !! idx = Some R ->
  max_ADC self <> 0 ->
  convert_entry self c (CArray cells)
  = Ok (FloatList (scale_mV R (max_ADC self) <$> (inject_Z <$> cells))).
Proof.
  intros Hget Hl HM. unfold convert_entry, py_dict_getitem, adc2mV, py_getitem.
  rewrite Hget. cbn [result_bind]. rewrite channelInputRanges_allowed, Hl.
  cbn [result_bind samples_of].
  destruct cells as [|x cells]; [done |].
  rewrite fmap_cons, decide_False by done. done.
Qed.

(** [Scenario.session_planned] is what [setup_channel('A')],
    [setup_channel('B')] and [setup_block(4, 3e-5, 0)] leave behind. *)
Lemma session_planned_reachable : reachable Scenario.session_planned.
Proof.
  pose (w := {| script := [Scenario.ok]; trace := [] |}).
  pose (s1 := (setup_channel "A" 0 2000 true (new_session 32767) w).1.2).
  pose (s2 := (setup_channel "B" 0 2000 true s1 w).1.2).
  change Scenario.session_planned
    with ((setup_block 4 (3 # 100000) 0 s2 w).1.2).
  repeat constructor.
Qed.

(** One capture on a reachable session with a block plan, the driver
    accepting the calls of [run_block], reporting ready at some poll and
    handing over the values: [get_block_traces] returns one trace for each
    active channel, the samples the driver wrote into the channel's fresh
    array, each scaled by the channel's range over the full-scale count. *)
Theorem capture_returns_scaled_samples self w rs r_last r_run polls r_ready
    r_values samples rest n pre post tb :
  reachable self -> max_ADC self <> 0 ->
  block_size self = Some n -> 0 <= n ->
  pre_trigger_samples self = Some pre ->
  post_trigger_samples self = Some post ->
  timebase self = Some tb ->
  script w = rs ++ r_last :: r_run :: polls ++ r_ready :: r_values :: rest ->
  S (length rs) = length (active_channels self) ->
  status r_last = 0 -> status r_run = 0 ->
  Forall (fun p => ready_after p 0 = 0) polls ->
  ready_after r_ready 0 <> 0 ->
  status r_values = 0 -> delivered r_values = BlockData samples ->
  let armed := run_block self w in
  let run := get_block_traces armed.1.2 armed.2 in
  exists traces,
    run.1.1 = Returned traces /\
    buffers run.1.2 = traces /\
    script run.2 = rest /\
    (forall c, c ∈ PyDict.keys traces <-> c ∈ active_channels self) /\
    (forall c, c ∈ active_channels self ->
       exists idx R,
         PyDict.get c (channel_ranges self) = Some idx /\
         allowed_ranges !! idx = Some R /\
         PyDict.get c traces =
           Some (FloatList
                   (scale_mV R (max_ADC self) <$>
                    (inject_Z <$>
                     match PyDict.get c samples with
                     | Some data => write_cells data (replicate (Z.to_nat n) 0)
                     | None => replicate (Z.to_nat n) 0
                     end)))).
Proof.
  intros Hreach HM Hn Hn0 Hpre Hpost Htb Hscr Hlen Hlast Hrun Hpolls Hready
    Hval Hdel armed run.
  destruct (reachable_well_keyed _ Hreach) as (Hnd & Hndb & Hact & Hbuf & Hok).
  assert (forall c, c ∈ active_channels self ->
            exists idx R code,
              PyDict.get c (channel_ranges self) = Some idx /\
              allowed_ranges !! idx = Some R /\ channel_code c = Ok code)
    as Hchan.
  { intros c Hc. apply Hact, PyDictFacts.elem_of_keys_get in Hc as [idx Hidx].
    destruct (Hok c idx Hidx) as [[R HR] [code Hcode]]. by exists idx, R, code. }
  subst run armed.
  erewrite run_block_run; [| done | done | done | done | done | | done
                           | done | done | done].
  2:{ intros c Hc. destruct (Hchan c Hc) as (_ & _ & code & _ & _ & ?).
      by exists code. }
  cbn [fst snd].
  set (fresh := fresh_buffers n (active_channels self) (buffers self)).
  set (armed := set_buffers fresh self).
  destruct (fresh_buffers_keys n (active_channels self) (buffers self))
    as [Hfnd Hfk]. fold fresh in Hfnd, Hfk.
  assert (forall c, c ∈ PyDict.keys fresh <-> c ∈ active_channels self)
    as Hkeys.
  { intros c. rewrite Hfk. split; [intros [?|?]; auto | by right]. }
  erewrite (get_block_traces_run armed _ polls r_ready r_values rest n);
    [| done | done | done | done].
  cbv zeta. rewrite decide_True by done.
  subst armed. cbn [buffers set_buffers].
  set (filled := set_buffers (driver_fill r_values fresh) _).
  assert (forall c cells, convert_entry filled c (CArray cells)
                          = convert_entry self c (CArray cells)) as Hext.
  { intros. by apply convert_entry_ext. }
  destruct (map_items_total (convert_entry filled) (driver_fill r_values fresh))
    as [traces Htraces].
  { unfold driver_fill. rewrite Hdel. apply Forall_fmap, Forall_forall.
    intros [c b] Hin.
    assert (c ∈ active_channels self) as Hc.
    { apply Hkeys, list_elem_of_fmap. by exists (c, b). }
    apply elem_of_dict_NoDup in Hin; [|by apply Hfnd].
    unfold fresh in Hin. rewrite fresh_buffers_get in Hin by (by left).
    injection Hin as <-.
    destruct (Hchan c Hc) as (idx & R & _ & Hidx & HR & _).
    unfold compose. cbv beta iota.
    destruct (PyDict.get c samples); cbn [fst snd]; rewrite Hext;
      erewrite convert_entry_array by done; by eexists. }
  exists traces. rewrite Htraces.
  cbn [fst snd buffers set_buffers set_voltage_unit script].
  split_and!; [done | done | done | |].
  - intros c. apply PyDictFacts.map_items_keys in Htraces.
    by rewrite Htraces, driver_fill_keys.
  - intros c Hc. destruct (Hchan c Hc) as (idx & R & _ & Hidx & HR & _).
    exists idx, R. split_and!; [done | done |].
    assert (PyDict.get c (driver_fill r_values fresh)
            = Some (CArray match PyDict.get c samples with
                           | Some data =>
                               write_cells data (replicate (Z.to_nat n) 0)
                           | None => replicate (Z.to_nat n) 0
                           end)) as Hget.
    { rewrite (driver_fill_get _ samples) by done. unfold fresh.
      rewrite fresh_buffers_get by (by left). cbn.
      by destruct (PyDict.get c samples). }
    destruct (map_items_get _ _ _ _ _ Htraces Hget) as (v' & Hv' & ->).
    rewrite Hext in Hv'. erewrite convert_entry_array in Hv' by done.
    by injection Hv' as <-.
Qed.

(** The capture of the scenario: channel A at 2000 mV with full scale 32767
    and the samples 100, 200, -300, 32767. *)
Lemma capture_returns_scaled_samples_witness :
  let armed := run_block Scenario.session_planned
                 {| script := [Scenario.ok] ++ Scenario.ok :: Scenario.ok
                                :: [] ++ Scenario.ready :: Scenario.captured
                                :: [];
                    trace := [] |} in
  let run := get_block_traces armed.1.2 armed.2 in
  exists traces,
    run.1.1 = Returned traces /\
    PyDict.get "A" traces
    = Some (FloatList [200000 # 32767; 400000 # 32767; -600000 # 32767;
                       65534000 # 32767]).
Proof.
  destruct (capture_returns_scaled_samples Scenario.session_planned
              {| script := [Scenario.ok] ++ Scenario.ok :: Scenario.ok
                             :: [] ++ Scenario.ready :: Scenario.captured
                             :: [];
                 trace := [] |}
              [Scenario.ok] Scenario.ok Scenario.ok [] Scenario.ready
              Scenario.captured
              [("A", [100; 200; -300; 32767]); ("B", [1; 2; 3; 4])]%string
              [] 4 0 4 3999 session_planned_reachable)
    as (traces & Hret & _ & _ & _ & Hget);
    [discriminate | reflexivity | lia | reflexivity | reflexivity
    | reflexivity | reflexivity | reflexivity | reflexivity | reflexivity
    | constructor | discriminate | reflexivity | reflexivity |].
  exists traces. split; [exact Hret |].
  destruct (Hget "A"%string) as (idx & R & Hidx & HR & ->).
  { change ("A"%string ∈ ["A"; "B"]%string). apply list_elem_of_here. }
  vm_compute in Hidx. injection Hidx as <-.
  vm_compute in HR. injection HR as <-.
  reflexivity.
Defined.

(** Channels A and B, the driver refusing the buffer of A. *)
Lemma run_block_earlier_statuses_dropped_witness :
  let run := run_block Scenario.session_planned
               {| script := [Scenario.failed] ++ Scenario.ok :: Scenario.ok
                              :: [];
                  trace := [] |} in
  run.1.1 = Returned tt /\
  last (trace run.2)
  = Some (Driver (ps4000aRunBlock 0 4 3999) (Some Scenario.ok)).
Proof.
  apply (run_block_earlier_statuses_dropped Scenario.session_planned
           {| script := [Scenario.failed] ++ Scenario.ok :: Scenario.ok :: [];
              trace := [] |}
           [Scenario.failed] Scenario.ok Scenario.ok [] 4 0 4 3999);
    [reflexivity | lia | reflexivity | reflexivity | reflexivity | |
     reflexivity | reflexivity | reflexivity | reflexivity].
  intros c Hc. change (c ∈ ["A"; "B"]%string) in Hc.
  apply elem_of_cons in Hc as [->|Hc]; [by exists 0 |].
  apply elem_of_cons in Hc as [->|Hc]; [by exists 1 |].
  by apply elem_of_nil in Hc.
Defined.

End BlockFacts.

(** ** Streaming mode *)

Module StreamFacts.
Import Stream.

Ltac unfold_monad :=
  unfold assert_pico_ok in *;
  unfold bind, lift, ret, raise, gets, modify, attr, driver_call, sleep,
    log in *.

(** *** Slices *)

Lemma np_slice_length {A} (a n : nat) (l : list A) :
  (a + n <= length l)%nat -> length (np_slice a (a + n) l) = n.
Proof.
  intros Hl. unfold np_slice. rewrite length_take, length_drop. lia.
Qed.

(** An assignment of a slice of the right length puts the source in place
    of the cells [a .. a + n) and leaves the others. *)
Lemma ndarray_setslice_fits (a n : nat) (src dst : list Z) :
  length src = n -> (a + n <= length dst)%nat ->
  ndarray_setslice a (a + n) src dst
  = Ok (take a dst ++ src ++ drop (a + n) dst).
Proof.
  intros Hsrc Hl. unfold ndarray_setslice.
  rewrite np_slice_length by done. by rewrite decide_True.
Qed.

(** *** The callback *)

(** Where every destination buffer is an array with room for the segment
    and every intermediate buffer holds the segment, the loop of the
    callback copies the segment of each channel to the cursor. *)
Lemma copy_segment_fits inter cursor n start (items : dict pybuf) :
  Forall (fun e => exists dst,
            e.2 = NdArray dst /\ (cursor + n <= length dst)%nat /\
            is_Some (PyDict.get e.1 inter)) items ->
  Forall (fun e : string * list Z => (start + n <= length e.2)%nat) inter ->
  copy_segment inter cursor (cursor + n) start (start + n) items =
  ((fun e =>
      (e.1,
       match e.2 with
       | NdArray dst =>
           NdArray (take cursor dst ++ segment inter start n e.1
                      ++ drop (cursor + n) dst)
       | b => b
       end)) <$> items,
   None).
Proof.
  intros Hitems Hinter.
  induction Hitems as [|[chl b] items (dst & Hb & Hlen & [cells Hget]) _ IH];
    [done |].
  simpl in Hb, Hget. subst b. cbn [copy_segment].
  unfold py_dict_getitem. rewrite Hget. cbn [result_bind setslice].
  assert (start + n <= length cells)%nat as Hcells.
  { clear -Hget Hinter. induction Hinter as [|[k v] inter Hv _ IH]; [done |].
    simpl in Hget. destruct (decide (k = chl)); [|by apply IH].
    by injection Hget as <-. }
  pose proof (np_slice_length start n cells Hcells) as Hseg.
  rewrite ndarray_setslice_fits by done.
  cbn [result_bind]. rewrite IH.
  rewrite fmap_cons. cbn [fst snd]. unfold segment at 2.
  by rewrite Hget.
Qed.

(** The callback sets [_wasCalledBack] before anything can go wrong. *)
Lemma streaming_callback_called n start auto self w :
  _wasCalledBack (streaming_callback n start auto self w).1.2 = true.
Proof.
  unfold streaming_callback. unfold_monad. cbv beta iota delta [id].
  destruct (copy_segment _ _ _ _ _ _) as [bufs [e|]]; [done |].
  by destruct auto.
Qed.

(** The callback leaves the driver's side of the run alone. *)
Lemma streaming_callback_world n start auto self w :
  (streaming_callback n start auto self w).2 = w.
Proof.
  unfold streaming_callback. unfold_monad. cbv beta iota delta [id].
  destruct (copy_segment _ _ _ _ _ _) as [bufs [e|]]; [done |].
  by destruct auto.
Qed.

(** *** One delivery *)

Lemma refresh_get samples inter chl :
  PyDict.get chl (refresh samples inter) =
  (fun cells =>
     match PyDict.get chl samples with
     | Some data => write_cells data cells
     | None => cells
     end) <$> PyDict.get chl inter.
Proof.
  unfold refresh. induction inter as [|[k cells] inter IH]; [done |].
  rewrite fmap_cons. cbn [PyDict.get].
  destruct (PyDict.get k samples) eqn:Hk; cbn [PyDict.get];
    (destruct (decide (k = chl)) as [->|]; [by rewrite Hk | done]).
Qed.

Lemma refresh_keys samples inter :
  PyDict.keys (refresh samples inter) = PyDict.keys inter.
Proof.
  unfold refresh, PyDict.keys. rewrite <-list_fmap_compose.
  apply list_fmap_ext. intros _ [chl cells] _. simpl.
  by destruct (PyDict.get chl samples).
Qed.

(** The driver overwrites cells and does not resize the array. *)
Lemma write_cells_length data cells :
  length (write_cells data cells) = length cells.
Proof.
  unfold write_cells. rewrite length_app, length_take, length_drop. lia.
Qed.

(** A poll that delivers a segment which fits: the segment of every channel
    lands at the cursor, the cursor moves on by its length, and a stop
    request of the driver is recorded. *)
Lemma driver_deliver_segment self w r samples n start auto :
  delivered r = StreamData samples (Some (n, start, auto)) ->
  let inter := refresh samples (intermediate_buffers self) in
  Forall (fun e => exists dst,
            e.2 = NdArray dst /\ (_nextSample self + n <= length dst)%nat /\
            is_Some (PyDict.get e.1 inter)) (complete_buffers self) ->
  Forall (fun e : string * list Z => (start + n <= length e.2)%nat) inter ->
  let self' := (driver_deliver r self w).1.2 in
  intermediate_buffers self' = inter /\
  complete_buffers self'
    = landed inter (_nextSample self) n start <$> complete_buffers self /\
  _nextSample self' = (_nextSample self + n)%nat /\
  _autoStopOuter self' = auto || _autoStopOuter self /\
  _wasCalledBack self' = true /\
  total_buffer_len self' = total_buffer_len self.
Proof.
  intros Hr inter Hitems Hinter. unfold driver_deliver. rewrite Hr.
  unfold streaming_callback. unfold_monad. cbv beta iota zeta delta [id].
  cbn [intermediate_buffers complete_buffers _nextSample
       set_intermediate_buffers set_wasCalledBack].
  fold inter. rewrite (copy_segment_fits inter _ n start) by done.
  destruct auto; cbn; by split_and!.
Qed.

(** A poll without a callback changes at most the intermediate buffers. *)
Lemma driver_deliver_idle self w r :
  (forall samples cb, delivered r <> StreamData samples (Some cb)) ->
  let self' := (driver_deliver r self w).1.2 in
  complete_buffers self' = complete_buffers self /\
  _nextSample self' = _nextSample self /\
  _autoStopOuter self' = _autoStopOuter self /\
  _wasCalledBack self' = _wasCalledBack self /\
  total_buffer_len self' = total_buffer_len self.
Proof.
  intros Hr. unfold driver_deliver.
  destruct (delivered r) as [| | | |samples [cb|]]; try done.
  by destruct (Hr samples cb).
Qed.

(** After a poll the flag [_wasCalledBack] tells whether the driver called
    back. *)
Lemma driver_deliver_called self w r :
  _wasCalledBack self = false ->
  _wasCalledBack (driver_deliver r self w).1.2
  = negb (unsuccessful_poll
            (Driver ps4000aGetStreamingLatestValues (Some r))).
Proof.
  intros Hflag. unfold driver_deliver. cbn [unsuccessful_poll].
  destruct (delivered r) as [| | | |samples [[[n start] auto]|]];
    try (by cbn).
  unfold_monad. cbv beta iota zeta delta [id].
  match goal with
  | |- context [streaming_callback ?n ?s ?a ?x ?y] =>
      pose proof (streaming_callback_called n s a x y) as Hcb;
      destruct (streaming_callback n s a x y) as [[o s'] w']
  end.
  by cbn in *.
Qed.

(** *** The polling loop *)

(** One turn of the loop with a driver that answers. *)
Lemma stream_loop_step r scr self tr :
  (_nextSample self < total_buffer_len self)%nat ->
  _autoStopOuter self = false ->
  stream_loop (r :: scr) self tr =
  let tr1 := tr ++ [Driver ps4000aGetStreamingLatestValues (Some r)] in
  let self2 :=
    (driver_deliver r (set_wasCalledBack false self)
       {| script := scr; trace := tr1 |}).1.2 in
  if _wasCalledBack self2 then stream_loop scr self2 tr1
  else stream_loop scr self2 (tr1 ++ [Sleep 10]).
Proof.
  intros Hnext Hauto. cbn [stream_loop].
  rewrite bool_decide_eq_true_2, Hauto by done. cbn [andb negb].
  by destruct (driver_deliver _ _ _) as [[o s] w].
Qed.



(** *** Two deliveries in a row *)

Lemma get_Forall {V} (P : V -> Prop) (d : dict V) k v :
  Forall (fun e => P e.2) d -> PyDict.get k d = Some v -> P v.
Proof.
  induction 1 as [|[k' v'] d Hv _ IH]; [done |]. simpl.
  destruct (decide (k' = k)); [|done]. by intros [= <-].
Qed.

Lemma segment_length inter start n chl :
  Forall (fun e : string * list Z => (start + n <= length e.2)%nat) inter ->
  is_Some (PyDict.get chl inter) ->
  length (segment inter start n chl) = n.
Proof.
  intros Hinter [cells Hget]. unfold segment. rewrite Hget. simpl.
  apply np_slice_length.
  by apply (get_Forall (fun v => (start + n <= length v)%nat) inter chl).
Qed.

(** The destination buffers at the start of a run. *)
Lemma stream_start_fields self :
  let s0 := stream_start self in
  intermediate_buffers s0 = intermediate_buffers self /\
  complete_buffers s0
    = (fun e : string * list Z =>
         (e.1, NdArray (replicate (total_buffer_len self) 0)))
        <$> intermediate_buffers self /\
  _nextSample s0 = 0%nat /\ _autoStopOuter s0 = false /\
  total_buffer_len s0 = total_buffer_len self.
Proof.
  cbn. split_and!; try done. apply list_fmap_ext. by intros _ [k v] _.
Qed.


(** [stream_traces] is the opening assignments, the loop, and, when the
    loop has ended, the conversion. *)
Lemma stream_traces_loop self w :
  stream_traces self w =
  match stream_loop (script w) (stream_start self) (trace w) with
  | (Returned _, s, w') => (convert_ADC_units ;;; gets complete_buffers) s w'
  | (Raised e, s, w') => (Raised e, s, w')
  | (Waiting, s, w') => (Waiting, s, w')
  end.
Proof. reflexivity. Qed.



(** *** The trace of [stream_traces] *)

Lemma backs_off_cons e tl :
  unsuccessful_poll e = false -> backs_off (e :: tl) = backs_off tl.
Proof. intros He. cbn [backs_off]. rewrite He. by destruct tl. Qed.

Lemma backs_off_cons_sleep e ms tl :
  backs_off (e :: Sleep ms :: tl) = backs_off (Sleep ms :: tl).
Proof. cbn [backs_off is_sleep]. by destruct (unsuccessful_poll e). Qed.

(** What the loop adds to the trace: every poll that came back without a
    callback has a sleep of 10 ms behind it, and the loop does not end on
    such a poll. *)
Lemma stream_loop_trace scr : forall self tr,
  exists tl,
    trace (stream_loop scr self tr).2 = tr ++ tl /\
    (forall e, backs_off (tl ++ [e]) = true) /\
    backs_off tl = true /\
    Forall (fun e => is_sleep e = true -> e = Sleep 10) tl.
Proof.
  induction scr as [|r scr IH]; intros self tr; cbn [stream_loop].
  - destruct (_ && _); cbn [snd trace].
    + eexists. split; [done |]. split_and!; [done | done |].
      by repeat constructor.
    + exists []. rewrite app_nil_r. by split_and!.
  - destruct (_ && _); cbn [snd trace];
      [| exists []; rewrite app_nil_r; by split_and!].
    set (poll := Driver ps4000aGetStreamingLatestValues (Some r)).
    match goal with
    | |- context [driver_deliver r ?s ?w] =>
        pose proof (driver_deliver_called s w r eq_refl) as Hflag;
        destruct (driver_deliver r s w) as [[o self2] w2]
    end.
    cbn [fst snd] in Hflag. fold poll in Hflag.
    destruct (_wasCalledBack self2).
    + destruct (IH self2 (tr ++ [poll])) as (tl & -> & Hnext & Hoff & Hms).
      destruct (unsuccessful_poll poll) eqn:Hpoll; [done |].
      exists (poll :: tl). rewrite <-app_assoc.
      split_and!; [done | | |].
      * intros e. rewrite <-app_comm_cons, backs_off_cons by done. apply Hnext.
      * by rewrite backs_off_cons.
      * constructor; [done | done].
    + destruct (IH self2 ((tr ++ [poll]) ++ [Sleep 10]))
        as (tl & -> & Hnext & Hoff & Hms).
      exists (poll :: Sleep 10 :: tl). rewrite <-!app_assoc.
      split_and!; [done | | |].
      * intros e. rewrite <-!app_comm_cons, backs_off_cons_sleep.
        rewrite backs_off_cons by done. apply Hnext.
      * rewrite backs_off_cons_sleep. by rewrite backs_off_cons.
      * constructor; [done |]. by constructor.
Qed.

(** The conversion adds its one call of the driver to the trace. *)
Lemma convert_ADC_units_trace self w :
  trace (convert_ADC_units self w).2
  = trace w ++ [Driver ps4000aMaximumValue (head (script w))].
Proof.
  unfold convert_ADC_units. unfold_monad. cbv beta iota delta [id].
  destruct (script w) as [|r scr]; [done |]. cbn [head].
  destruct (decide (status r = 0)); [|done].
  cbv beta iota zeta. by destruct (PyDict.map_items _ _).
Qed.

Lemma stream_traces_trace self w :
  exists tl,
    trace (stream_traces self w).2 = trace w ++ tl /\
    backs_off tl = true /\
    Forall (fun e => is_sleep e = true -> e = Sleep 10) tl.
Proof.
  rewrite stream_traces_loop.
  destruct (stream_loop_trace (script w) (stream_start self) (trace w))
    as (tl & Htl & Hnext & Hoff & Hms).
  destruct (stream_loop _ _ _) as [[[[]| |] s] w']; cbn [snd] in Htl;
    [| by exists tl | by exists tl].
  unfold bind, gets.
  pose proof (convert_ADC_units_trace s w') as Hconv.
  destruct (convert_ADC_units s w') as [[[[]| |] s'] w'']; cbn [snd] in *;
    (exists (tl ++ [Driver ps4000aMaximumValue (head (script w'))]);
     rewrite Hconv, Htl, <-app_assoc;
     split_and!; [done | apply Hnext |];
     apply Forall_app; split; [done | by repeat constructor]).
Qed.

(** A first poll without a callback: the loop sleeps before it polls
    again. *)
Lemma stream_traces_idle_poll self r rest tr :
  (0 < total_buffer_len self)%nat ->
  (forall samples cb, delivered r <> StreamData samples (Some cb)) ->
  exists tl,
    trace (stream_traces self {| script := r :: rest; trace := tr |}).2
    = tr ++ Driver ps4000aGetStreamingLatestValues (Some r) :: Sleep 10 :: tl.
Proof.
  intros Hlen Hr.
  assert (unsuccessful_poll (Driver ps4000aGetStreamingLatestValues (Some r))
          = true) as Hpoll.
  { cbn [unsuccessful_poll].
    destruct (delivered r) as [| | | |samples [cb|]]; try done.
    by destruct (Hr samples cb). }
  assert (exists tl,
            trace (stream_loop (r :: rest) (stream_start self) tr).2
            = tr ++ Driver ps4000aGetStreamingLatestValues (Some r)
                 :: Sleep 10 :: tl) as (tl & Htl).
  { rewrite stream_loop_step by done. cbv zeta.
    rewrite driver_deliver_called, Hpoll by done. cbn [negb].
    match goal with
    | |- context [stream_loop rest ?s ?t] =>
        destruct (stream_loop_trace rest s t) as (tl & -> & _)
    end.
    exists tl. by rewrite <-!app_assoc. }
  rewrite stream_traces_loop. cbn [script trace].
  destruct (stream_loop _ _ _) as [[[[]| |] s] w']; cbn [snd] in Htl;
    [| by exists tl | by exists tl].
  unfold bind, gets.
  pose proof (convert_ADC_units_trace s w') as Hconv.
  destruct (convert_ADC_units s w') as [[[[]| |] s'] w'']; cbn [snd] in *;
    (exists (tl ++ [Driver ps4000aMaximumValue (head (script w'))]);
     rewrite Hconv, Htl, <-app_assoc; done).
Qed.

(** *** The callback at any cursor *)

(** A callback whose segment lies inside the intermediate buffers and fits
    into the destination behind the cursor: for every channel the segment
    takes the place of the cells [cursor .. cursor + n), the cells before
    and behind keep their values and the buffer its length; the cursor moves
    on by [n], and a stop request of the driver is recorded. *)
Theorem streaming_callback_lands self w n start auto :
  Forall (fun e => exists dst,
            e.2 = NdArray dst /\ (_nextSample self + n <= length dst)%nat /\
            is_Some (PyDict.get e.1 (intermediate_buffers self)))
    (complete_buffers self) ->
  Forall (fun e : string * list Z => (start + n <= length e.2)%nat)
    (intermediate_buffers self) ->
  let run := streaming_callback n start auto self w in
  let cursor := _nextSample self in
  run.1.1 = Returned tt /\ run.2 = w /\
  _nextSample run.1.2 = (cursor + n)%nat /\
  _autoStopOuter run.1.2 = auto || _autoStopOuter self /\
  _wasCalledBack run.1.2 = true /\
  intermediate_buffers run.1.2 = intermediate_buffers self /\
  Forall2 (fun old new =>
             new.1 = old.1 /\
             exists dst dst',
               old.2 = NdArray dst /\ new.2 = NdArray dst' /\
               length dst' = length dst /\
               take cursor dst' = take cursor dst /\
               take n (drop cursor dst')
               = np_slice start (start + n)
                   (default [] (PyDict.get old.1 (intermediate_buffers self))) /\
               drop (cursor + n) dst' = drop (cursor + n) dst)
    (complete_buffers self) (complete_buffers run.1.2).
Proof.
  intros Hitems Hinter run cursor. subst run.
  unfold streaming_callback. unfold_monad. cbv beta iota zeta delta [id].
  cbn [intermediate_buffers complete_buffers _nextSample set_wasCalledBack].
  fold cursor. rewrite (copy_segment_fits _ cursor n start) by done.
  assert (Forall2 (fun old new =>
             new.1 = old.1 /\
             exists dst dst',
               old.2 = NdArray dst /\ new.2 = NdArray dst' /\
               length dst' = length dst /\
               take cursor dst' = take cursor dst /\
               take n (drop cursor dst')
               = np_slice start (start + n)
                   (default [] (PyDict.get old.1 (intermediate_buffers self))) /\
               drop (cursor + n) dst' = drop (cursor + n) dst)
            (complete_buffers self)
            ((fun e =>
                (e.1,
                 match e.2 with
                 | NdArray dst =>
                     NdArray (take cursor dst
                                ++ segment (intermediate_buffers self) start n e.1
                                ++ drop (cursor + n) dst)
                 | b => b
                 end)) <$> complete_buffers self)) as Hland.
  { apply Forall2_fmap_r, Forall_Forall2_diag.
    eapply Forall_impl; [exact Hitems |].
    intros [chl b] (dst & Hb & Hlen & Hsome). cbn [fst snd] in Hb, Hsome.
    subst b. unfold compose. cbn [fst snd]. fold cursor in Hlen.
    split; [done |]. eexists dst, _. split_and!; [done | done | | | |].
    - pose proof (segment_length _ start n chl Hinter Hsome) as Hseg.
      rewrite !length_app, Hseg, length_take, length_drop. lia.
    - rewrite take_app_length'; [done |]. rewrite length_take. lia.
    - rewrite drop_app_length' by (rewrite length_take; lia).
      pose proof (segment_length _ start n chl Hinter Hsome) as Hseg.
      by rewrite take_app_length'.
    - pose proof (segment_length _ start n chl Hinter Hsome) as Hseg.
      rewrite <-drop_drop.
      rewrite drop_app_length' by (rewrite length_take; lia).
      by rewrite drop_app_length'. }
  destruct auto; cbn; by split_and!.
Qed.

(** The second segment of the scenario, landing at cursor 50. *)
Lemma streaming_callback_lands_witness :
  let self :=
    (driver_deliver Scenario.first_50
       (stream_start Scenario.streaming_A) (Scenario.quiet [])).1.2 in
  let inter := refresh [("A"%string, Scenario.ramp 1 80)]
                 (intermediate_buffers self) in
  let run := streaming_callback 30 50 false
               (set_intermediate_buffers inter self) (Scenario.quiet []) in
  _nextSample self = 50%nat /\ _nextSample run.1.2 = 80%nat /\
  PyDict.get "A" (complete_buffers run.1.2)
  = Some (NdArray (Scenario.ramp 1 80 ++ replicate 4016 0)).
Proof.
  intros self inter run.
  destruct (streaming_callback_lands (set_intermediate_buffers inter self)
              (Scenario.quiet []) 30 50 false)
    as (_ & _ & Hk & _).
  - repeat constructor. eexists. split; [reflexivity |].
    split; [vm_compute; lia | by eexists].
  - constructor; [vm_compute; lia | constructor].
  - split; [reflexivity |]. split; [exact Hk |]. by vm_compute.
Defined.

(** *** A segment that does not fit *)

(** A callback with more than one sample, for which the destination of the
    first channel has too few cells left behind the cursor: the assignment
    of the slice raises [ValueError] before anything is copied.  The cursor
    and the destination buffers are as before and a stop request of the
    driver is not recorded; the flag [_wasCalledBack] is set all the same,
    so the loop does not sleep before it polls again. *)
Theorem streaming_callback_overrun self w n start auto chl dst rest cells :
  complete_buffers self = (chl, NdArray dst) :: rest ->
  PyDict.get chl (intermediate_buffers self) = Some cells ->
  (start + n <= length cells)%nat ->
  (1 < n)%nat ->
  (length dst < _nextSample self + n)%nat ->
  let run := streaming_callback n start auto self w in
  run.1.1 = Raised ValueError /\ run.2 = w /\
  _nextSample run.1.2 = _nextSample self /\
  complete_buffers run.1.2 = complete_buffers self /\
  _autoStopOuter run.1.2 = _autoStopOuter self /\
  _wasCalledBack run.1.2 = true.
Proof.
  intros Hbufs Hget Hcells Hn Hover run. subst run.
  unfold streaming_callback. unfold_monad. cbv beta iota zeta delta [id].
  cbn [intermediate_buffers complete_buffers _nextSample set_wasCalledBack].
  rewrite Hbufs. cbn [copy_segment]. unfold py_dict_getitem. rewrite Hget.
  cbn [result_bind setslice]. unfold ndarray_setslice.
  pose proof (np_slice_length start n cells Hcells) as Hsrc.
  rewrite decide_False.
  2:{ rewrite Hsrc. unfold np_slice. rewrite length_take, length_drop. lia. }
  destruct (np_slice start (start + n) cells) as [|x [|y src]] eqn:Hs;
    cbn [length] in Hsrc; [lia | lia |].
  cbn. by split_and!.
Qed.

(** A segment of 30 samples when the cursor stands 10 cells before the end
    of the destination. *)
Lemma streaming_callback_overrun_witness :
  let self := set_nextSample 4086 (stream_start Scenario.streaming_A) in
  let run := streaming_callback 30 0 true self (Scenario.quiet []) in
  run.1.1 = Raised ValueError /\ _nextSample run.1.2 = 4086%nat /\
  _autoStopOuter run.1.2 = false /\ _wasCalledBack run.1.2 = true.
Proof.
  intros self run.
  destruct (streaming_callback_overrun self (Scenario.quiet []) 30 0 true
              "A"%string (replicate 4096 0) [] (replicate 512 0))
    as (Ho & _ & Hk & _ & Ha & Hw);
    [reflexivity | reflexivity | vm_compute; lia | lia | vm_compute; lia |].
  by split_and!.
Defined.

(** *** What the loop does not look at *)

(** Outcome and session after a poll depend on what the driver delivered,
    not on the status of the call nor on the trace. *)
Lemma driver_deliver_delivered r r' self w w' :
  delivered r = delivered r' ->
  (driver_deliver r self w).1 = (driver_deliver r' self w').1.
Proof.
  intros Hd. unfold driver_deliver. rewrite <-Hd.
  destruct (delivered r) as [| | | |samples [[[n start] auto]|]]; try done.
  unfold streaming_callback. unfold_monad. cbv beta iota zeta delta [id].
  destruct (copy_segment _ _ _ _ _ _) as [bufs [e|]]; [done |].
  by destruct auto.
Qed.

(** [stream_traces] does not keep the status that
    [ps4000aGetStreamingLatestValues] returns: whatever statuses the driver
    answers the polls with, the loop ends with the same outcome and the
    same session. *)
Theorem stream_loop_ignores_status (f : response -> Z) scr : forall self tr tr',
  (stream_loop ((fun r => {| status := f r; delivered := delivered r |}) <$> scr)
     self tr').1
  = (stream_loop scr self tr).1.
Proof.
  induction scr as [|r scr IH]; intros self tr tr';
    rewrite ?fmap_cons; cbn [stream_loop fmap list_fmap].
  - by destruct (_ && _).
  - destruct (_ && _); [|done].
    set (r' := {| status := f r; delivered := delivered r |}).
    match goal with
    | |- context [driver_deliver r' ?s ?w'] =>
        match goal with
        | |- context [driver_deliver r s ?w] =>
            pose proof (driver_deliver_delivered r' r s w' w eq_refl) as Hsame;
            destruct (driver_deliver r' s w') as [[o1 s1] w1];
            destruct (driver_deliver r s w) as [[o2 s2] w2]
        end
    end.
    cbn [fst] in Hsame. injection Hsame as _ ->.
    destruct (_wasCalledBack s2); apply IH.
Qed.

(** *** A run starts afresh *)

(** [stream_traces] begins by assigning fresh destination buffers, the
    cursor and the two flags: what an earlier run left in them does not
    enter the new run. *)
Theorem stream_traces_starts_afresh self bufs cursor stop called w :
  stream_traces
    (set_complete_buffers bufs
       (set_nextSample cursor
          (set_autoStopOuter stop (set_wasCalledBack called self)))) w
  = stream_traces self w.
Proof. rewrite !stream_traces_loop. by destruct self. Qed.

(** *** [setup_channel] *)

(** [setup_channel] for a channel name of the enumeration and a driver that
    answers its two calls.  When the driver refuses the channel the session
    is as before.  When it accepts, the channel has a zeroed intermediate
    buffer of [buffer_len] cells and the range index as it was passed, the
    other channels are as before, and the second call registers the buffer;
    the outcome is decided by the status of that second call, after the
    channel has been entered into the session. *)
Theorem setup_channel_registers name code offset range coupling self r1 r2
    rest tr :
  channel_code name = Ok code ->
  let run := setup_channel name offset range coupling self
               {| script := r1 :: r2 :: rest; trace := tr |} in
  let c1 := Driver (ps4000aSetChannel code 1 coupling range offset) (Some r1) in
  let c2 := Driver (ps4000aSetDataBuffers code (Z.of_nat (buffer_len self)))
              (Some r2) in
  (status r1 <> 0 ->
   run = (Raised (PicoSDKCtypesError (status r1)), self,
          {| script := r2 :: rest; trace := tr ++ [c1] |})) /\
  (status r1 = 0 ->
   run.1.1 = (if decide (status r2 = 0) then Returned tt
              else Raised (PicoSDKCtypesError (status r2))) /\
   run.2 = {| script := rest; trace := (tr ++ [c1]) ++ [c2] |} /\
   PyDict.get name (intermediate_buffers run.1.2)
   = Some (replicate (buffer_len self) 0) /\
   PyDict.get name (channel_ranges run.1.2) = Some range /\
   (forall c, c <> name ->
      PyDict.get c (intermediate_buffers run.1.2)
      = PyDict.get c (intermediate_buffers self) /\
      PyDict.get c (channel_ranges run.1.2)
      = PyDict.get c (channel_ranges self))).
Proof.
  intros Hcode run c1 c2. subst run c1 c2.
  unfold setup_channel. unfold_monad. rewrite Hcode.
  cbv beta iota zeta delta [id]. cbn [script trace].
  split.
  - intros Hst. by rewrite decide_False.
  - intros Hst. rewrite decide_True by done. cbv beta iota zeta.
    cbn [script trace intermediate_buffers channel_ranges buffer_len
         set_intermediate_buffers set_channel_ranges].
    destruct (decide (status r2 = 0)); cbn [fst snd];
      cbn [intermediate_buffers channel_ranges set_intermediate_buffers
           set_channel_ranges];
      (split_and!; [done | done | apply PyDictFacts.get_set_eq
                    | apply PyDictFacts.get_set_eq |];
       intros c Hc; by rewrite !PyDictFacts.get_set_ne).
Qed.

(** Channel B with a range index that no table knows, the driver refusing
    the buffer: the channel is in the session. *)
Lemma setup_channel_registers_witness :
  let run := setup_channel "B" 0 99 true Scenario.streaming_A
               {| script := [Scenario.ok; Scenario.failed]; trace := [] |} in
  run.1.1 = Raised (PicoSDKCtypesError 13) /\
  PyDict.get "B" (intermediate_buffers run.1.2) = Some (replicate 512 0) /\
  PyDict.get "B" (channel_ranges run.1.2) = Some 99%nat /\
  PyDict.get "A" (channel_ranges run.1.2) = Some 9%nat.
Proof.
  destruct (setup_channel_registers "B" 1 0 99 true Scenario.streaming_A
              Scenario.ok Scenario.failed [] [] eq_refl) as [_ Hok].
  destruct (Hok eq_refl) as (Ho & _ & Hbuf & Hrange & Hother).
  split; [exact Ho |]. split; [exact Hbuf |]. split; [exact Hrange |].
  destruct (Hother "A"%string) as [_ ->]; [discriminate | reflexivity].
Defined.

(** *** A run that the driver stops *)

(** The loop is over once the cursor has reached the end of the destination
    or the driver has asked to stop. *)
Lemma stream_loop_done scr self tr :
  bool_decide (_nextSample self < total_buffer_len self)%nat
    && negb (_autoStopOuter self) = false ->
  stream_loop scr self tr = (Returned tt, self, {| script := scr; trace := tr |}).
Proof. intros Hcond. destruct scr; cbn [stream_loop]; by rewrite Hcond. Qed.

(** A poll leaves the ranges of the channels alone. *)
Lemma driver_deliver_channel_ranges r self w :
  channel_ranges (driver_deliver r self w).1.2 = channel_ranges self.
Proof.
  unfold driver_deliver.
  destruct (delivered r) as [| | | |samples [[[n start] auto]|]]; try done.
  unfold streaming_callback. unfold_monad. cbv beta iota zeta delta [id].
  destruct (copy_segment _ _ _ _ _ _) as [bufs [e|]]; [done |].
  by destruct auto.
Qed.

(** The conversion of an array of counts. *)
Lemma adc2mV_array cells idx R maxADC :
  channelInputRanges !! idx = Some R -> maxADC <> 0 ->
  adc2mV (samples_of (NdArray cells)) idx maxADC
  = Ok (scale_mV R maxADC <$> (inject_Z <$> cells)).
Proof.
  intros Hl HM. unfold adc2mV, py_getitem. rewrite Hl.
  cbn [result_bind samples_of].
  destruct cells as [|x cells]; [done |].
  rewrite fmap_cons, decide_False by done. done.
Qed.

(** A run in which the first poll delivers a segment of [n] samples
    together with the request to stop, the segment lying inside the
    intermediate buffers and fitting into the destination, and in which the
    driver then reports a full-scale count that is not zero: where every
    channel has a range index of the table, [stream_traces] returns one
    trace for each channel, the segment followed by the zeros of the
    untouched cells, each sample scaled by the channel's range over the
    full-scale count. *)
Theorem stream_traces_returns_scaled_samples self st samples n start m maxADC
    rest tr :
  let r := {| status := st;
              delivered := StreamData samples (Some (n, start, true)) |} in
  let inter := refresh samples (intermediate_buffers self) in
  (0 < total_buffer_len self)%nat -> (n <= total_buffer_len self)%nat ->
  Forall (fun e : string * list Z => (start + n <= length e.2)%nat) inter ->
  Forall (fun e : string * list Z =>
            exists idx R,
              PyDict.get e.1 (channel_ranges self) = Some idx /\
              channelInputRanges !! idx = Some R)
    (intermediate_buffers self) ->
  status m = 0 -> delivered m = MaxValue maxADC -> maxADC <> 0 ->
  let run := stream_traces self {| script := r :: m :: rest; trace := tr |} in
  exists traces,
    run.1.1 = Returned traces /\
    complete_buffers run.1.2 = traces /\
    voltage_unit run.1.2 = Some "mV"%string /\
    run.2 = {| script := rest;
               trace := (tr ++ [Driver ps4000aGetStreamingLatestValues (Some r)])
                          ++ [Driver ps4000aMaximumValue (Some m)] |} /\
    PyDict.keys traces = PyDict.keys (intermediate_buffers self) /\
    (forall c idx R,
       c ∈ PyDict.keys (intermediate_buffers self) ->
       PyDict.get c (channel_ranges self) = Some idx ->
       channelInputRanges !! idx = Some R ->
       PyDict.get c traces =
         Some (FloatList
                 (scale_mV R maxADC <$>
                    (inject_Z <$>
                       (segment inter start n c
                          ++ replicate (total_buffer_len self - n) 0))))).
Proof.
  intros r inter Htotal Hn Hinter Hranges Hst Hm HM run.
  destruct (stream_start_fields self) as (Hi0 & Hc0 & Hk0 & Ha0 & Ht0).
  set (s0 := stream_start self) in *.
  assert (forall e : string * list Z, e ∈ intermediate_buffers self ->
            is_Some (PyDict.get e.1 inter)) as Hsome.
  { intros e He. apply PyDictFacts.elem_of_keys_get. unfold inter.
    rewrite refresh_keys. apply list_elem_of_fmap. by exists e. }
  (* the poll *)
  assert (exists s1,
            stream_loop (r :: m :: rest) s0 tr =
            (Returned tt, s1,
             {| script := m :: rest;
                trace := tr ++ [Driver ps4000aGetStreamingLatestValues
                                  (Some r)] |}) /\
            channel_ranges s1 = channel_ranges self /\
            complete_buffers s1 =
              (fun e : string * list Z =>
                 (e.1,
                  NdArray (segment inter start n e.1
                             ++ replicate (total_buffer_len self - n) 0)))
                <$> intermediate_buffers self) as (s1 & Hloop & Hr1 & Hc1).
  { rewrite stream_loop_step by (first [exact Ha0 | rewrite Hk0, Ht0; lia]).
    cbv zeta.
    match goal with
    | |- context [driver_deliver r ?s ?w] =>
        destruct (driver_deliver_segment s w r samples n start true eq_refl)
          as (_ & Hc & Hk & Ha & Hw & Ht);
        [ | | pose proof (driver_deliver_channel_ranges r s w) as Hr;
              set (s1 := (driver_deliver r s w).1.2) in * ]
    end.
    { cbn [complete_buffers intermediate_buffers _nextSample
           set_wasCalledBack].
      rewrite Hc0, Hi0, Hk0. fold inter. apply Forall_fmap, Forall_forall.
      intros e He. eexists. split; [done |].
      rewrite length_replicate. split; [simpl; lia | by apply Hsome]. }
    { cbn [intermediate_buffers set_wasCalledBack]. by rewrite Hi0. }
    cbn [intermediate_buffers complete_buffers _nextSample _autoStopOuter
         total_buffer_len channel_ranges set_wasCalledBack] in Hc, Hk, Ha, Hr.
    rewrite Hi0 in Hc. fold inter in Hc. rewrite Hc0, Hk0 in Hc.
    rewrite Hw. exists s1.
    rewrite stream_loop_done by (rewrite Ha; apply andb_false_r).
    split_and!; [done | done |].
    rewrite Hc, <-list_fmap_compose. apply list_fmap_ext.
    intros _ e He%list_elem_of_lookup_2.
    pose proof (segment_length _ start n e.1 Hinter (Hsome e He)) as Hseg.
    unfold landed. cbn [fst snd compose]. f_equal. f_equal.
    rewrite take_0, app_nil_l. f_equal.
    by rewrite Nat.add_0_l, drop_replicate. }
  (* the conversion *)
  subst run. rewrite stream_traces_loop. cbn [script trace].
  fold s0. rewrite Hloop.
  unfold convert_ADC_units. unfold_monad. cbn [script trace].
  rewrite Hm, decide_True by done. cbv beta iota zeta delta [id].
  rewrite Hr1, Hc1.
  match goal with
  | |- context [PyDict.map_items ?f ?d] =>
      destruct (BlockFacts.map_items_total f d) as [traces Htraces]
  end.
  { apply Forall_fmap, Forall_forall. intros e He. unfold compose.
    cbn [fst snd]. rewrite Forall_forall in Hranges.
    destruct (Hranges e He) as (idx & R & Hidx & HR).
    unfold py_dict_getitem. rewrite Hidx. cbn [result_bind].
    rewrite (adc2mV_array _ idx R) by done. by eexists. }
  rewrite Htraces. exists traces.
  cbn [fst snd complete_buffers voltage_unit set_complete_buffers
       set_voltage_unit].
  split_and!; [done | done | done | done | |].
  - apply PyDictFacts.map_items_keys in Htraces. rewrite Htraces.
    unfold PyDict.keys. rewrite <-list_fmap_compose.
    by apply list_fmap_ext.
  - intros c idx R Hc Hidx HR.
    apply PyDictFacts.elem_of_keys_get in Hc as [cells Hcells].
    match type of Htraces with
    | PyDict.map_items ?f (?g <$> _) = _ =>
        assert (PyDict.get c (g <$> intermediate_buffers self)
                = Some (g (c, cells)).2) as Hget
    end.
    { clearbody inter. clear -Hcells.
      induction (intermediate_buffers self) as [|[k x] d IH];
        [done |].
      rewrite fmap_cons. cbn [PyDict.get fst snd] in *.
      destruct (decide (k = c)) as [->|]; [|by apply IH].
      by injection Hcells as ->. }
    cbn [fst snd] in Hget.
    destruct (BlockFacts.map_items_get _ _ _ _ _ Htraces Hget)
      as (v' & Hv' & ->).
    unfold py_dict_getitem in Hv'. rewrite Hidx in Hv'.
    cbn [result_bind] in Hv'. rewrite (adc2mV_array _ idx R) in Hv' by done.
    cbn [result_bind] in Hv'. by injection Hv' as <-.
Qed.

(** Channel A at range index 9: the driver delivers 50 samples, asks to
    stop and reports the full-scale count 32767. *)
Lemma stream_traces_returns_scaled_samples_witness :
  let run :=
    stream_traces Scenario.streaming_A
      {| script :=
           [{| status := 0;
               delivered := StreamData [("A"%string, Scenario.ramp 1 50)]
                              (Some (50%nat, 0%nat, true)) |};
            {| status := 0; delivered := MaxValue 32767 |}];
         trace := [] |} in
  exists traces,
    run.1.1 = Returned traces /\
    PyDict.keys traces = ["A"%string] /\
    exists values,
      PyDict.get "A" traces = Some (FloatList values) /\
      length values = 4096%nat /\
      take 2 values = [10000 # 32767; 20000 # 32767]%Q.
Proof.
  destruct (stream_traces_returns_scaled_samples Scenario.streaming_A 0
              [("A"%string, Scenario.ramp 1 50)] 50 0
              {| status := 0; delivered := MaxValue 32767 |} 32767 [] [])
    as (traces & Hret & _ & _ & _ & Hkeys & Hget).
  - vm_compute. lia.
  - vm_compute. lia.
  - constructor; [vm_compute; lia | constructor].
  - constructor; [| constructor]. by exists 9%nat, 10000.
  - reflexivity.
  - reflexivity.
  - discriminate.
  - exists traces. split; [exact Hret |]. split; [exact Hkeys |].
    eexists. split.
    + apply (Hget "A"%string 9%nat 10000);
        [apply list_elem_of_here | reflexivity | reflexivity].
    + split; by vm_compute.
Defined.

End StreamFacts.

(** ** The two collecting operations as polling loops *)

Module PollingFacts.

(** C8, amended. [stream_traces] backs off: in what it adds to the trace,
    whatever follows a poll that came back without a callback is a sleep,
    every sleep is one of 10 ms, and a first poll without a callback has that
    sleep right behind it.  [get_block_traces] does not: it adds no sleep to
    the trace, and a first poll that finds the block not ready has the next
    poll right behind it. *)
Theorem stream_backs_off_block_polls_busily :
  (forall self w,
     exists tl,
       trace (Stream.stream_traces self w).2 = trace w ++ tl /\
       backs_off tl = true /\
       Forall (fun e => is_sleep e = true -> e = Sleep 10) tl) /\
  (forall self r rest tr,
     (0 < Stream.total_buffer_len self)%nat ->
     (forall samples cb, delivered r <> StreamData samples (Some cb)) ->
     exists tl,
       trace (Stream.stream_traces self
                {| script := r :: rest; trace := tr |}).2
       = tr ++ Driver ps4000aGetStreamingLatestValues (Some r)
            :: Sleep 10 :: tl) /\
  (forall self w,
     exists tl,
       trace (Block.get_block_traces self w).2 = trace w ++ tl /\
       Forall (fun e => is_sleep e = false) tl) /\
  (forall self r1 r2 rest tr,
     Block.ready_after r1 0 = 0 ->
     exists tl,
       trace (Block.get_block_traces self
                {| script := r1 :: r2 :: rest; trace := tr |}).2
       = tr ++ Driver ps4000aIsReady (Some r1)
            :: Driver ps4000aIsReady (Some r2) :: tl).
Proof.
  split_and!.
  - apply StreamFacts.stream_traces_trace.
  - apply StreamFacts.stream_traces_idle_poll.
  - intros self w.
    destruct (BlockFacts.get_block_traces_after_loop self w)
      as (tl & -> & Hns).
    destruct (BlockFacts.is_ready_loop_trace (script w) 0 (trace w))
      as (tl' & -> & Hns').
    exists (tl' ++ tl). rewrite <-app_assoc. split; [done |].
    by apply Forall_app.
  - apply BlockFacts.get_block_traces_busy_poll.
Qed.

(** A streaming run on channel A whose first poll finds no data, and a
    block capture that is not ready at the first poll. *)
Lemma stream_backs_off_block_polls_busily_witness :
  (exists tl,
     trace (Stream.stream_traces Scenario.streaming_A
              {| script := [Scenario.no_data; Scenario.first_50];
                 trace := [] |}).2
     = [] ++ Driver ps4000aGetStreamingLatestValues (Some Scenario.no_data)
          :: Sleep 10 :: tl) /\
  (exists tl,
     trace (Block.get_block_traces Scenario.session_armed
              {| script := [Scenario.not_ready; Scenario.ready;
                            Scenario.captured];
                 trace := [] |}).2
     = [] ++ Driver ps4000aIsReady (Some Scenario.not_ready)
          :: Driver ps4000aIsReady (Some Scenario.ready) :: tl).
Proof.
  destruct stream_backs_off_block_polls_busily as (_ & Hstream & _ & Hblock).
  split.
  - apply (Hstream Scenario.streaming_A Scenario.no_data
             [Scenario.first_50] []); [vm_compute; lia | done].
  - apply (Hblock Scenario.session_armed Scenario.not_ready Scenario.ready
             [Scenario.captured] []). reflexivity.
Defined.

(** C8 as stated fails. A block capture that is not ready at the first poll
    and ready at the second: [get_block_traces] issues the two polls one
    right after the other, with no sleep between them. *)
Lemma get_block_traces_no_sleep_counterexample :
  trace (Block.get_block_traces Scenario.session_armed
           {| script := [Scenario.not_ready; Scenario.ready;
                         Scenario.captured];
              trace := [] |}).2
  = [Driver ps4000aIsReady (Some Scenario.not_ready);
     Driver ps4000aIsReady (Some Scenario.ready);
     Driver (ps4000aGetValues 4) (Some Scenario.captured)] /\
  unsuccessful_poll (Driver ps4000aIsReady (Some Scenario.not_ready)) = true /\
  ~ (forall self w,
       trace w = [] ->
       backs_off (trace (Block.get_block_traces self w).2) = true).
Proof.
  split_and!; [reflexivity | reflexivity |].
  intros Hclaim.
  specialize (Hclaim Scenario.session_armed
                {| script := [Scenario.not_ready; Scenario.ready;
                              Scenario.captured];
                   trace := [] |} eq_refl).
  vm_compute in Hclaim. discriminate.
Qed.

End PollingFacts.

(** ** Opening the unit *)

Module SessionFacts.

(** The constructors of the two classes.  A failure of [ps4000aOpenUnit]
    with any status but 286 is raised at once.  On status 286 the power
    source is confirmed with one call of [ps4000aChangePowerSource], and the
    status of that call decides: any failure of it is raised, also a second
    286, and on success the constructor goes on as after a clean opening,
    in block mode to read the full-scale count, which the new session
    keeps. *)
Theorem init_power_source_retry r r' rest tr :
  let opened := Driver ps4000aOpenUnit (Some r) in
  let changed := Driver (ps4000aChangePowerSource 286) (Some r') in
  (status r <> 0 -> status r <> 286 ->
   Block.__init__ tt {| script := r :: rest; trace := tr |}
   = (Raised (PicoSDKCtypesError (status r)), tt,
      {| script := rest; trace := tr ++ [opened] |}) /\
   Stream.__init__ tt {| script := r :: rest; trace := tr |}
   = (Raised (PicoSDKCtypesError (status r)), tt,
      {| script := rest; trace := tr ++ [opened] |})) /\
  (status r = 286 -> status r' <> 0 ->
   Block.__init__ tt {| script := r :: r' :: rest; trace := tr |}
   = (Raised (PicoSDKCtypesError (status r')), tt,
      {| script := rest; trace := tr ++ [opened; changed] |}) /\
   Stream.__init__ tt {| script := r :: r' :: rest; trace := tr |}
   = (Raised (PicoSDKCtypesError (status r')), tt,
      {| script := rest; trace := tr ++ [opened; changed] |})) /\
  (status r = 286 -> status r' = 0 ->
   Stream.__init__ tt {| script := r :: r' :: rest; trace := tr |}
   = (Returned Stream.new_session, tt,
      {| script := rest; trace := tr ++ [opened; changed] |}) /\
   forall m v rest',
     rest = m :: rest' -> delivered m = MaxValue v ->
     Block.__init__ tt {| script := r :: r' :: rest; trace := tr |}
     = (if decide (status m = 0) then Returned (Block.new_session v)
        else Raised (PicoSDKCtypesError (status m)),
        tt,
        {| script := rest';
           trace := tr ++ [opened; changed;
                           Driver ps4000aMaximumValue (Some m)] |})).
Proof.
  intros opened changed. subst opened changed. split_and!.
  - intros H0 H286.
    unfold Block.__init__, Stream.__init__, open_unit.
    unfold assert_pico_ok.
    unfold bind, ret, raise, driver_call. cbn [script trace].
    by rewrite !decide_False.
  - intros H286 Hr'.
    unfold Block.__init__, Stream.__init__, open_unit.
    unfold assert_pico_ok.
    unfold bind, ret, raise, driver_call. cbn [script trace].
    rewrite H286. rewrite (decide_False (P := 286 = 0)) by done.
    rewrite (decide_True (P := 286 = 286)) by done.
    cbn [script trace]. rewrite decide_False by done.
    by rewrite <-!app_assoc.
  - intros H286 Hr'. split.
    + unfold Stream.__init__, open_unit. unfold assert_pico_ok.
      unfold bind, ret, raise, driver_call. cbn [script trace].
      rewrite H286. rewrite (decide_False (P := 286 = 0)) by done.
      rewrite (decide_True (P := 286 = 286)) by done.
      cbn [script trace]. rewrite decide_True by done.
      by rewrite <-!app_assoc.
    + intros m v rest' -> Hm.
      unfold Block.__init__, Block._get_max_ADC, open_unit.
      unfold assert_pico_ok.
      unfold bind, ret, raise, driver_call. cbn [script trace].
      rewrite H286. rewrite (decide_False (P := 286 = 0)) by done.
      rewrite (decide_True (P := 286 = 286)) by done.
      cbn [script trace]. rewrite (decide_True (P := status r' = 0)) by done.
      cbn [script trace]. rewrite Hm.
      destruct (decide (status m = 0)); by rewrite <-!app_assoc.
Qed.

(** The power source is confirmed once: a second 286 is raised. *)
Lemma init_power_source_retry_witness :
  let r := {| status := 286; delivered := NoPayload |} in
  Block.__init__ tt {| script := [r; r; r]; trace := [] |}
  = (Raised (PicoSDKCtypesError 286), tt,
     {| script := [r];
        trace := [Driver ps4000aOpenUnit (Some r);
                  Driver (ps4000aChangePowerSource 286) (Some r)] |}).
Proof.
  intros r.
  destruct (init_power_source_retry r r [r] []) as (_ & Hraised & _).
  destruct Hraised as [Hblock _]; [reflexivity | discriminate |].
  exact Hblock.
Defined.

End SessionFacts.

(** ** The scrolling plot *)

Module ScrollFacts.
Import Scroll.

(** What holds between the turns of the loop, after the means [means] have
    been stored. *)
Lemma store_invariant mean st means :
  ptr st = length means ->
  shown st = Some <$> means ->
  (ptr st < length (data st))%nat ->
  (length (data st) <= Nat.max 100 (2 * ptr st))%nat ->
  (exists k, length (data st) = (100 * 2 ^ k)%nat) ->
  exists st',
    store mean st = Ok st' /\
    ptr st' = length (means ++ [mean]) /\
    shown st' = Some <$> (means ++ [mean]) /\
    (ptr st' < length (data st'))%nat /\
    (length (data st') <= Nat.max 100 (2 * ptr st'))%nat /\
    (exists k, length (data st') = (100 * 2 ^ k)%nat).
Proof.
  unfold shown. intros Hptr Hshown Hlt Hmax [k Hk].
  destruct (lookup_lt_is_Some_2 _ _ Hlt) as [old Hold].
  unfold store. rewrite Hold. cbv zeta. rewrite length_insert.
  assert (take (S (ptr st)) (<[ptr st := Some mean]> (data st))
          = Some <$> (means ++ [mean])) as Htake.
  { rewrite (take_S_r _ _ (Some mean))
      by (by rewrite list_lookup_insert_eq).
    rewrite take_insert_ge by lia. by rewrite Hshown, fmap_app. }
  destruct (decide (length (data st) <= S (ptr st))%nat).
  - eexists. split; [done |]. cbn [ptr data].
    rewrite !length_app, !length_replicate, !length_insert.
    cbn [length]. split_and!; [lia | | lia | lia |].
    + rewrite take_app_le by (rewrite length_insert; lia). done.
    + exists (S k). rewrite Nat.pow_succ_r'. lia.
  - eexists. split; [done |]. cbn [ptr data].
    rewrite ?length_insert, !length_app. cbn [length].
    split_and!; [lia | done | lia | lia | by exists k].
Qed.

Lemma pico_run_invariant means : forall st stored,
  ptr st = length stored ->
  shown st = Some <$> stored ->
  (ptr st < length (data st))%nat ->
  (length (data st) <= Nat.max 100 (2 * ptr st))%nat ->
  (exists k, length (data st) = (100 * 2 ^ k)%nat) ->
  exists st',
    pico_run means st = Ok st' /\
    ptr st' = length (stored ++ means) /\
    shown st' = Some <$> (stored ++ means) /\
    (ptr st' < length (data st'))%nat /\
    (length (data st') <= Nat.max 100 (2 * ptr st'))%nat /\
    (exists k, length (data st') = (100 * 2 ^ k)%nat).
Proof.
  induction means as [|mean means IH]; intros st stored Hptr Hshown Hlt Hmax Hk.
  - exists st. rewrite app_nil_r. by split_and!.
  - destruct (store_invariant mean st stored Hptr Hshown Hlt Hmax Hk)
      as (st1 & Hstore & Hptr1 & Hshown1 & Hlt1 & Hmax1 & Hk1).
    destruct (IH st1 (stored ++ [mean]) Hptr1 Hshown1 Hlt1 Hmax1 Hk1)
      as (st' & Hrun & Hrest).
    exists st'. cbn [pico_run]. rewrite Hstore. cbn [result_bind].
    rewrite <-app_assoc in Hrest. by split.
Qed.

(** However many captures the loop has gone through, no store has run past
    the end of the array: the curve is given the means of all the captures
    in their order and none of the undefined cells, there is room for the
    next store, and the array has 100 cells or at most twice as many cells
    as values, its length 100 doubled some number of times. *)
Theorem pico_run_keeps_every_mean means :
  exists st,
    pico_run means start = Ok st /\
    ptr st = length means /\
    shown st = Some <$> means /\
    (ptr st < length (data st))%nat /\
    (length (data st) <= Nat.max 100 (2 * ptr st))%nat /\
    (exists k, length (data st) = (100 * 2 ^ k)%nat).
Proof.
  apply (pico_run_invariant means start []).
  - done.
  - done.
  - cbn [ptr data start]. rewrite length_replicate. lia.
  - cbn [ptr data start]. rewrite length_replicate. lia.
  - exists 0%nat. cbn [ptr data start]. by rewrite length_replicate.
Qed.

End ScrollFacts.
